(** * Taxi pickups: dataset streaming, models and evaluation

    A shallow embedding of [taxi_pickups.py] (Dataset, Evaluator, getModel,
    main) and of [src/models.py] (the Model variants), with the properties
    of the specification stated over it.

    Conventions.  Python integers are [Z].  The split fraction is an exact
    rational ([Q]); predictions, labels and the error metric are real
    numbers ([R]): rounding, infinities and NaN are outside the model.
    An object whose methods mutate it and may raise is a function from the
    state before the call to an outcome and the state after it, so that a
    mutation made before an exception is raised is kept. *)

From Stdlib Require Import ZArith QArith Qround List String Bool Lia.
From Stdlib Require Import Reals Lra.
From Stdlib Require Import Sorted Permutation.
Import ListNotations.

Local Open Scope Z_scope.

(** ** Exceptions and outcomes *)

(** The exceptions the modelled code can raise.  The source raises plain
    [Exception] objects told apart by their message; the constructors keep
    the values formatted into the message. *)
Inductive exn : Type :=
| OutOfRangeError (example_id dataset_size : Z)
    (* "Cannot access example %d: outside specified dataset size range of %d." *)
| UnknownModelNameError (model_name : string)
    (* "No model with name %s" *)
| ModelNotTrainedError
| IndexError
| AssertionError
| ValueError
| SystemExit (status : Z).

(** Outcome of a call: a value, an exception, or a loop that was cut off
    by its iteration bound. *)
Inductive result (A : Type) : Type :=
| Ok (a : A)
| Raise (e : exn)
| NoFuel.

Arguments Ok {A} a.
Arguments Raise {A} e.
Arguments NoFuel {A}.

Definition bind {A B : Type} (r : result A) (k : A -> result B) : result B :=
  match r with
  | Ok a => k a
  | Raise e => Raise e
  | NoFuel => NoFuel
  end.

Notation "'do' x <- r ; k" := (bind r (fun x => k))
  (at level 10, x pattern, r at level 100, k at level 200).

(** [seq[0]] on a Python sequence. *)
Definition item0 {A : Type} (l : list A) : result A :=
  match l with
  | [] => Raise IndexError
  | x :: _ => Ok x
  end.

(** [l[:n]] and [l[i:]] on a Python list: a negative bound counts from
    the end, and a bound outside the list is cut to it. *)
Definition slice_to {A : Type} (l : list A) (n : Z) : list A :=
  if n <? 0 then firstn (Z.to_nat (Z.of_nat (List.length l) + n)) l
  else firstn (Z.to_nat n) l.

Definition slice_from {A : Type} (l : list A) (i : Z) : list A :=
  if i <? 0 then skipn (Z.to_nat (Z.of_nat (List.length l) + i)) l
  else skipn (Z.to_nat i) l.

(** [a[i]] on a sequence: a negative index counts from the end, and an
    index outside the sequence raises IndexError. *)
Definition getitem {A : Type} (a : list A) (i : Z) : result A :=
  let size := Z.of_nat (List.length a) in
  let j := if i <? 0 then i + size else i in
  if (j <? 0) || (size <=? j) then Raise IndexError
  else
    match nth_error a (Z.to_nat j) with
    | Some x => Ok x
    | None => Raise IndexError
    end.

(** ** Example records and the row source *)

(** Only the hour of [start_datetime] is ever read. *)
Record datetime : Type := { day : Z; hour : Z }.

Record Example : Type := {
  id : Z;
  start_datetime : datetime;
  zone_id : Z;
  num_pickups : Z
}.

(** The connection: the rows of each table, in storage order. *)
Definition Database : Type := string -> list Example.

Definition AGGREGATED_PICKUPS : string := "pickups_aggregated".
Definition TRIP_DATA : string := "trip_data".

(** SQL [id BETWEEN lo AND hi] (both ends included). *)
Definition between (lo hi : Z) (row : Example) : bool :=
  (lo <=? id row) && (id row <=? hi).

(** Python's [int] on a number: truncation toward zero. *)
Definition int (x : Q) : Z := Z.quot (Qnum x) (Zpos (Qden x)).

(** ** Dataset *)

Module Dataset.

Record t : Type := {
  db : Database;
  last_train_id : Z;
  last_test_id : Z;
  current_example_id : Z;
  table_name : string
}.

Definition __init__ (conn : Database) (train_fraction : Q) (dataset_size : Z)
    (table : string) : t :=
  {| db := conn;
     last_train_id := int (train_fraction * inject_Z dataset_size);
     last_test_id := dataset_size;
     current_example_id := 1;
     table_name := table |}.

Definition set_current_example_id (self : t) (i : Z) : t :=
  {| db := db self;
     last_train_id := last_train_id self;
     last_test_id := last_test_id self;
     current_example_id := i;
     table_name := table_name self |}.

Definition hasMoreTrainExamples (self : t) : bool :=
  current_example_id self <=? last_train_id self.

Definition hasMoreTestExamples (self : t) : bool :=
  current_example_id self <=? last_test_id self.

Definition _getExamples (self : t) (start_id num_examples : Z)
    : list Example :=
  let end_id := start_id + num_examples - 1 in
  filter (between start_id end_id) (db self (table_name self)).

(** The batch size after the truncation test of [getTrainExamples]. *)
Definition effective_batch_size (self : t) (batch_size : Z) : Z :=
  if current_example_id self + batch_size - 1 >? last_train_id self
  then last_train_id self - current_example_id self + 1
  else batch_size.

Definition getTrainExamples (self : t) (batch_size : Z)
    : list Example * t :=
  let batch_size := effective_batch_size self batch_size in
  let examples := _getExamples self (current_example_id self) batch_size in
  (examples,
   set_current_example_id self (current_example_id self + batch_size)).

Definition getTestExample (self : t) : result Example * t :=
  if current_example_id self >? last_test_id self then
    (Raise (OutOfRangeError (current_example_id self) (last_test_id self)),
     self)
  else
    let self :=
      if current_example_id self <=? last_train_id self
      then set_current_example_id self (last_train_id self + 1)
      else self in
    match _getExamples self (current_example_id self) 1 with
    | [] => (Raise IndexError, self)
    | example :: _ =>
        (Ok example,
         set_current_example_id self (current_example_id self + 1))
    end.

End Dataset.

(** A caller's sequence of calls on one Dataset. *)
Inductive call : Type :=
| CallGetTrainExamples (batch_size : Z)
| CallGetTestExample.

Definition perform (self : Dataset.t) (c : call) : Dataset.t :=
  match c with
  | CallGetTrainExamples batch_size =>
      snd (Dataset.getTrainExamples self batch_size)
  | CallGetTestExample => snd (Dataset.getTestExample self)
  end.

Definition perform_all (self : Dataset.t) (calls : list call) : Dataset.t :=
  fold_left perform calls self.

(** ** External capabilities

    [models.py] is handed a [database] object and builds its estimators
    from scikit-learn; neither is part of the program.  They enter the
    model as the functions below, about which nothing is assumed. *)

(** The aggregate query built by the baselines:
    [SELECT AVG(num_pickups) as avg_num_pickups FROM <from_table>
     WHERE [HOUR(start_datetime) = <hour_is> AND] zone_id = <zone_id_is>
     AND id <= <id_at_most>]. *)
Record AggregateQuery : Type := {
  from_table : string;
  hour_is : option Z;
  zone_id_is : Z;
  id_at_most : Z
}.

(** A row of the answer; the average is taken to be a number. *)
Record AggregateRow : Type := { avg_num_pickups : R }.

(** [database.execute_query(query_string, fetch_all)]. *)
Definition QueryDatabase : Type := AggregateQuery -> bool -> list AggregateRow.

(** The estimators, with the arguments their constructors are given. *)
Inductive estimator : Type :=
| SGDRegressor (n_iter : Z) (alpha : Q) (learning_rate : string)
    (eta0 power_t : Q) (verbose : Z)
| SVR (C : Q) (verbose : bool)
| DecisionTreeRegressor (max_depth min_samples_leaf : Z).

Record External : Type := {
  Matrix : Type;
  Vocabulary : Type;
  Fitted : Type;
  (* the feature extractor's two steps *)
  build_vocabulary : bool -> list Example -> Vocabulary;
  vectorize : bool -> Vocabulary -> list Example -> Matrix;
  (* scikit-learn's fit and predict *)
  estimator_fit : estimator -> Matrix -> list Z -> Fitted;
  estimator_predict : estimator -> Fitted -> Matrix -> list R
}.

(** The constants of [const.py] and [util.py], which are not among the
    source files. *)
Record Const : Type := {
  Const_AGGREGATED_PICKUPS : string;
  Const_TRAIN_BATCH_SIZE : Z;
  util_VERBOSE : bool
}.

(** ** FeatureExtractor and the regressor object *)

Module FeatureExtractor.

Record t (ext : External) : Type := {
  sparse : bool;
  vocabulary : option (Vocabulary ext)
}.
Arguments sparse {ext} _.
Arguments vocabulary {ext} _.

Definition __init__ (ext : External) (sparse : bool) : t ext :=
  {| sparse := sparse; vocabulary := None |}.

(** Modelled from the spec: [FeatureExtractor.getFeatureVectors] of
    [feature_extractor.py], which is not among the source files.  In
    training mode it fits the vocabulary on the batch and keeps it; with
    [is_test] it reuses the vocabulary established during [train] and
    never re-fits; used before [train] it fails with
    [ModelNotTrainedError]. *)
Definition getFeatureVectors {ext : External} (self : t ext)
    (row_dicts : list Example) (is_test : bool)
    : result (Matrix ext) * t ext :=
  if is_test then
    match vocabulary self with
    | None => (Raise ModelNotTrainedError, self)
    | Some v => (Ok (vectorize ext (sparse self) v row_dicts), self)
    end
  else
    let v := build_vocabulary ext (sparse self) row_dicts in
    (Ok (vectorize ext (sparse self) v row_dicts),
     {| sparse := sparse self; vocabulary := Some v |}).

End FeatureExtractor.

Module Regressor.

(** A scikit-learn estimator object: its constructor arguments and, once
    [fit] has run, what it learned. *)
Record t (ext : External) : Type := {
  kind : estimator;
  learned : option (Fitted ext)
}.
Arguments kind {ext} _.
Arguments learned {ext} _.

Definition fit {ext : External} (self : t ext) (X : Matrix ext) (y : list Z)
    : t ext :=
  {| kind := kind self;
     learned := Some (estimator_fit ext (kind self) X y) |}.

(** An estimator that was never fitted refuses to predict. *)
Definition predict {ext : External} (self : t ext) (X : Matrix ext)
    : result (list R) :=
  match learned self with
  | None => Raise ModelNotTrainedError
  | Some w => Ok (estimator_predict ext (kind self) w X)
  end.

End Regressor.

(** ** models.py *)

Module RegressionModel.

(** [self.dataset] is a reference to the Dataset the caller also holds;
    its state is passed to the methods and returned by them. *)
Record t (ext : External) : Type := {
  db : QueryDatabase;
  table_name : string;
  regressor : Regressor.t ext;
  feature_extractor : FeatureExtractor.t ext
}.
Arguments db {ext} _.
Arguments table_name {ext} _.
Arguments regressor {ext} _.
Arguments feature_extractor {ext} _.

Definition __init__ {ext : External} (const : Const)
    (database : QueryDatabase) (regressor_model : Regressor.t ext)
    (sparse : bool) : t ext :=
  {| db := database;
     table_name := Const_AGGREGATED_PICKUPS const;
     regressor := regressor_model;
     feature_extractor := FeatureExtractor.__init__ ext sparse |}.

(** The [while] loop of [train]; [fuel] bounds its iterations. *)
Fixpoint collect_train_examples (fuel : nat) (batch_size : Z)
    (dataset : Dataset.t) (row_dicts : list Example)
    : result (list Example) * Dataset.t :=
  if Dataset.hasMoreTrainExamples dataset then
    match fuel with
    | O => (NoFuel, dataset)
    | S fuel =>
        let (examples, dataset) :=
          Dataset.getTrainExamples dataset batch_size in
        collect_train_examples fuel batch_size dataset
          (row_dicts ++ examples)
    end
  else (Ok row_dicts, dataset).

Definition train_fuel (dataset : Dataset.t) : nat :=
  Z.to_nat (Dataset.last_train_id dataset
            - Dataset.current_example_id dataset + 1).

(** The diagnostics printed under [util.VERBOSE] are left out. *)
Definition train {ext : External} (const : Const) (self : t ext)
    (dataset : Dataset.t) : result (t ext) * Dataset.t :=
  match collect_train_examples (train_fuel dataset)
          (Const_TRAIN_BATCH_SIZE const) dataset [] with
  | (Ok row_dicts, dataset) =>
      match FeatureExtractor.getFeatureVectors (feature_extractor self)
              row_dicts false with
      | (Ok X, extractor) =>
          let y := map num_pickups row_dicts in
          (Ok {| db := db self;
                 table_name := table_name self;
                 regressor := Regressor.fit (regressor self) X y;
                 feature_extractor := extractor |},
           dataset)
      | (Raise e, _) => (Raise e, dataset)
      | (NoFuel, _) => (NoFuel, dataset)
      end
  | (Raise e, dataset) => (Raise e, dataset)
  | (NoFuel, dataset) => (NoFuel, dataset)
  end.

(** In test mode the feature extractor is left as it was, so [predict]
    returns its outcome only. *)
Definition predict {ext : External} (self : t ext) (test_example : Example)
    : result R :=
  do vectorized_example <-
       fst (FeatureExtractor.getFeatureVectors (feature_extractor self)
              [test_example] true);
  do ys <- Regressor.predict (regressor self) vectorized_example;
  do y <- item0 ys;
  Ok (Rmax 0 y).

(** What [_printMostPredictiveFeatures] prints, line by line:
    "\tCannot print out the most predictive features for the model.",
    "\tFeature\t\tWeight", and "\t%s:\t%f" for a feature and its
    weight. *)
Inductive line : Type :=
| CannotPrintLine
| HeaderLine
| FeatureWeightLine (feature_name : string) (weight : Q).

(** The loop over [getFeatureNameIndices().iteritems()]. *)
Fixpoint collect_feature_weights (coef_ : list Q)
    (items : list (string * Z)) (feature_weights : list (string * Q))
    : result (list (string * Q)) :=
  match items with
  | [] => Ok feature_weights
  | (feature_name, index) :: items =>
      do weight <- getitem coef_ index;
      collect_feature_weights coef_ items
        (feature_weights ++ [(feature_name, weight)])
  end.

(** [feature_weights.sort(key=operator.itemgetter(1))]: ascending by
    weight, features of equal weight staying in their order. *)
Fixpoint insert_by_weight (feature_weight : string * Q)
    (sorted : list (string * Q)) : list (string * Q) :=
  match sorted with
  | [] => [feature_weight]
  | other :: rest =>
      if Qle_bool (snd feature_weight) (snd other)
      then feature_weight :: sorted
      else other :: insert_by_weight feature_weight rest
  end.

Definition sort_by_weight (feature_weights : list (string * Q))
    : list (string * Q) :=
  fold_right insert_by_weight [] feature_weights.

Definition printFeatureWeight (feature_weight : string * Q) : line :=
  FeatureWeightLine (fst feature_weight) (snd feature_weight).

(** [coef_] is the estimator's attribute of that name, absent ([None])
    when the estimator has no coefficients; [feature_name_indices] is the
    dictionary returned by the extractor's [getFeatureNameIndices], in
    the order it is iterated.  Weights are exact rationals.  The lines
    are printed only after the loop, so an exception leaves nothing
    printed. *)
Definition _printMostPredictiveFeatures (coef_ : option (list Q))
    (feature_name_indices : list (string * Z)) (n : Z)
    : result (list line) :=
  match coef_ with
  | None => Ok [CannotPrintLine]
  | Some coef_ =>
      do feature_weights <-
        collect_feature_weights coef_ feature_name_indices [];
      let feature_weights := sort_by_weight feature_weights in
      Ok (HeaderLine
          :: map printFeatureWeight (slice_to feature_weights n)
          ++ map printFeatureWeight (slice_from feature_weights (- n)))
  end.

End RegressionModel.

Module LinearRegression.

Definition __init__ {ext : External} (const : Const)
    (database : QueryDatabase) : RegressionModel.t ext :=
  let sgd_regressor :=
    {| Regressor.kind :=
         SGDRegressor 1000 0 "invscaling" (1 # 10) (1 # 10)
           (if util_VERBOSE const then 1 else 0);
       Regressor.learned := None |} in
  RegressionModel.__init__ const database sgd_regressor true.

Definition __str__ : string := "linear [linear regression model]".

End LinearRegression.

Module SupportVectorRegression.

Definition __init__ {ext : External} (const : Const)
    (database : QueryDatabase) : RegressionModel.t ext :=
  let svr_regressor :=
    {| Regressor.kind := SVR (10000000 # 1) (util_VERBOSE const);
       Regressor.learned := None |} in
  RegressionModel.__init__ const database svr_regressor true.

Definition __str__ : string := "svr [support vector regression model]".

End SupportVectorRegression.

Module DecisionTreeRegression.

Definition __init__ {ext : External} (const : Const)
    (database : QueryDatabase) : RegressionModel.t ext :=
  let dt_regressor :=
    {| Regressor.kind := DecisionTreeRegressor 50 2;
       Regressor.learned := None |} in
  RegressionModel.__init__ const database dt_regressor false.

Definition __str__ : string := "dtr [decision tree regression model]".

End DecisionTreeRegression.

Module BetterBaseline.

Record t : Type := { db : QueryDatabase; table_name : string }.

Definition __init__ (const : Const) (database : QueryDatabase) : t :=
  {| db := database; table_name := Const_AGGREGATED_PICKUPS const |}.

Definition train (self : t) : t := self.

Definition query (self : t) (dataset : Dataset.t) (test_example : Example)
    : AggregateQuery :=
  let pickup_time := start_datetime test_example in
  {| from_table := table_name self;
     hour_is := Some (hour pickup_time);
     zone_id_is := zone_id test_example;
     id_at_most := Dataset.last_train_id dataset |}.

Definition predict (self : t) (dataset : Dataset.t) (test_example : Example)
    : R :=
  let num_pickups := 0%R in
  let results := db self (query self dataset test_example) false in
  match results with
  | [row] => avg_num_pickups row      (* len(results) == 1 *)
  | _ => num_pickups
  end.

Definition __str__ : string := "betterbaseline [baseline version 2]".

End BetterBaseline.

Module Baseline.

Record t : Type := { db : QueryDatabase; table_name : string }.

Definition __init__ (const : Const) (database : QueryDatabase) : t :=
  {| db := database; table_name := Const_AGGREGATED_PICKUPS const |}.

Definition train (self : t) : t := self.

Definition query (self : t) (dataset : Dataset.t) (test_example : Example)
    : AggregateQuery :=
  {| from_table := table_name self;
     hour_is := None;
     zone_id_is := zone_id test_example;
     id_at_most := Dataset.last_train_id dataset |}.

Definition predict (self : t) (dataset : Dataset.t) (test_example : Example)
    : R :=
  let num_pickups := 0%R in
  let results := db self (query self dataset test_example) false in
  match results with
  | [row] => avg_num_pickups row      (* len(results) == 1 *)
  | _ => num_pickups
  end.

Definition __str__ : string := "baseline [baseline version 1]".

End Baseline.

(** The Model interface, as the sum of its five implementations. *)
Module Model.

Inductive t (ext : External) : Type :=
| LinearRegression (m : RegressionModel.t ext)
| SupportVectorRegression (m : RegressionModel.t ext)
| DecisionTreeRegression (m : RegressionModel.t ext)
| BetterBaseline (m : BetterBaseline.t)
| Baseline (m : Baseline.t).
Arguments LinearRegression {ext} m.
Arguments SupportVectorRegression {ext} m.
Arguments DecisionTreeRegression {ext} m.
Arguments BetterBaseline {ext} m.
Arguments Baseline {ext} m.

Definition train {ext : External} (const : Const) (self : t ext)
    (dataset : Dataset.t) : result (t ext) * Dataset.t :=
  let lift (make : RegressionModel.t ext -> t ext)
      (r : result (RegressionModel.t ext) * Dataset.t) :=
    match r with
    | (Ok m, dataset) => (Ok (make m), dataset)
    | (Raise e, dataset) => (Raise e, dataset)
    | (NoFuel, dataset) => (NoFuel, dataset)
    end in
  match self with
  | LinearRegression m =>
      lift LinearRegression (RegressionModel.train const m dataset)
  | SupportVectorRegression m =>
      lift SupportVectorRegression (RegressionModel.train const m dataset)
  | DecisionTreeRegression m =>
      lift DecisionTreeRegression (RegressionModel.train const m dataset)
  | BetterBaseline m => (Ok (BetterBaseline (BetterBaseline.train m)), dataset)
  | Baseline m => (Ok (Baseline (Baseline.train m)), dataset)
  end.

Definition predict {ext : External} (self : t ext) (dataset : Dataset.t)
    (test_example : Example) : result R :=
  match self with
  | LinearRegression m
  | SupportVectorRegression m
  | DecisionTreeRegression m => RegressionModel.predict m test_example
  | BetterBaseline m => Ok (BetterBaseline.predict m dataset test_example)
  | Baseline m => Ok (Baseline.predict m dataset test_example)
  end.

Definition __str__ {ext : External} (self : t ext) : string :=
  match self with
  | LinearRegression _ => LinearRegression.__str__
  | SupportVectorRegression _ => SupportVectorRegression.__str__
  | DecisionTreeRegression _ => DecisionTreeRegression.__str__
  | BetterBaseline _ => BetterBaseline.__str__
  | Baseline _ => Baseline.__str__
  end.

(** The [while] loop of [generateTestData]; [fuel] bounds its
    iterations. *)
Fixpoint collect_test_examples (fuel : nat) (dataset : Dataset.t)
    (test_data : list Example) (true_num_pickups : list Z)
    : result (list Example * list Z) * Dataset.t :=
  if Dataset.hasMoreTestExamples dataset then
    match fuel with
    | O => (NoFuel, dataset)
    | S fuel =>
        match Dataset.getTestExample dataset with
        | (Ok test_example, dataset) =>
            collect_test_examples fuel dataset
              (test_data ++ [test_example])
              (true_num_pickups ++ [num_pickups test_example])
        | (Raise e, dataset) => (Raise e, dataset)
        | (NoFuel, dataset) => (NoFuel, dataset)
        end
    end
  else (Ok (test_data, true_num_pickups), dataset).

Definition test_fuel (dataset : Dataset.t) : nat :=
  Z.to_nat (Dataset.last_test_id dataset
            - Dataset.current_example_id dataset + 1).

(** Modelled from the spec: [Model.generateTestData], which
    [Evaluator.evaluate] calls and which [src/models.py] does not define.
    While the Dataset has more test examples it takes the next one with
    [getTestExample], keeping the example and, as its true label, the
    example's [num_pickups]. *)
Definition generateTestData (dataset : Dataset.t)
    : result (list Example * list Z) * Dataset.t :=
  collect_test_examples (test_fuel dataset) dataset [] [].

End Model.

(** ** Evaluator *)

(** [sklearn.metrics.mean_squared_error]: the mean of the squared
    differences; it rejects lists of different lengths and empty ones. *)
Definition squared_errors (y_true y_pred : list R) : list R :=
  map (fun tp => Rsqr (fst tp - snd tp)) (combine y_true y_pred).

Definition Rsum (l : list R) : R := fold_right Rplus 0%R l.

Definition mean_squared_error (y_true y_pred : list R) : result R :=
  if negb (List.length y_true =? List.length y_pred)%nat then Raise ValueError
  else
    match y_true with
    | [] => Raise ValueError
    | _ => Ok (Rsum (squared_errors y_true y_pred)
               / INR (List.length y_true))%R
    end.

(** What [evaluatePredictions] prints: the two lists and the RMSD. *)
Record Report : Type := {
  true_line : list R;
  predicted_line : list R;
  rms : R
}.

Module Evaluator.

Record t (ext : External) : Type := { model : Model.t ext }.
Arguments model {ext} _.

(** The Dataset argument is a reference; its state is passed to
    [evaluate]. *)
Definition __init__ {ext : External} (model : Model.t ext) : t ext :=
  {| model := model |}.

Definition evaluatePredictions (true_num_pickups predicted_num_pickups
    : list R) : result Report :=
  if negb (List.length true_num_pickups =? List.length predicted_num_pickups)%nat
  then Raise AssertionError
  else
    do mse <- mean_squared_error true_num_pickups predicted_num_pickups;
    Ok {| true_line := true_num_pickups;
          predicted_line := predicted_num_pickups;
          rms := sqrt mse |}.

(** The [for] loop of [evaluate]. *)
Fixpoint predict_all (predict : Example -> result R)
    (test_data : list Example) (predicted_num_pickups : list R)
    : result (list R) :=
  match test_data with
  | [] => Ok predicted_num_pickups
  | test_example :: test_data =>
      do y <- predict test_example;
      predict_all predict test_data (predicted_num_pickups ++ [y])
  end.

Definition evaluate {ext : External} (self : t ext) (dataset : Dataset.t)
    : result Report * Dataset.t :=
  match Model.generateTestData dataset with
  | (Ok (test_data, true_num_pickups), dataset) =>
      (do predicted_num_pickups <-
            predict_all (Model.predict (model self) dataset) test_data [];
       evaluatePredictions (map IZR true_num_pickups) predicted_num_pickups,
       dataset)
  | (Raise e, dataset) => (Raise e, dataset)
  | (NoFuel, dataset) => (NoFuel, dataset)
  end.

End Evaluator.

(** ** Entry point *)

(** [Baseline()] is written without arguments; the model takes the
    [database] object of the process. *)
Definition getModel {ext : External} (const : Const)
    (database : QueryDatabase) (model_name : string)
    : result (Model.t ext) :=
  if String.eqb model_name "baseline"
  then Ok (Model.Baseline (Baseline.__init__ const database))
  else Raise (UnknownModelNameError model_name).

(** [main] returns what it printed itself and how it ended; [exit(1)]
    ends it with [SystemExit 1].  A finished run ends with the Report of
    the evaluation. *)
Definition main {ext : External} (const : Const) (conn : Database)
    (database : QueryDatabase) (args : list string)
    : list string * result Report :=
  if (List.length args <? 2)%nat then
    (["Usage: taxi_pickups model"%string], Raise (SystemExit 1))
  else
    match getModel (ext := ext) const database (nth 1 args EmptyString) with
    | Ok model =>
        let dataset := Dataset.__init__ conn (7 # 10) 20 AGGREGATED_PICKUPS in
        match Model.train const model dataset with
        | (Ok model, dataset) =>
            let evaluator := Evaluator.__init__ model in
            ([], fst (Evaluator.evaluate evaluator dataset))
        | (Raise e, _) => ([], Raise e)
        | (NoFuel, _) => ([], NoFuel)
        end
    | Raise e => ([], Raise e)
    | NoFuel => ([], NoFuel)
    end.

(** ** Concrete instances used by the examples *)

(** A table holding one row for each id of [1..n], in order. *)
Definition row_with_id (i : Z) : Example :=
  {| id := i;
     start_datetime := {| day := 1; hour := i mod 24 |};
     zone_id := i mod 3;
     num_pickups := 2 * i |}.

Definition rows_upto (n : nat) : list Example :=
  map (fun i => row_with_id (Z.of_nat i)) (seq 1 n).

Definition january : Database := fun _ => rows_upto 20.

(** A table with holes: only the ids 1, 5 and 9. *)
Definition sparse_table : Database :=
  fun _ => [row_with_id 1; row_with_id 5; row_with_id 9].

(** A database object that answers every query with the same rows. *)
Definition answering (rows : list AggregateRow) : QueryDatabase :=
  fun _ _ => rows.

Definition const_py : Const :=
  {| Const_AGGREGATED_PICKUPS := "pickups_aggregated";
     Const_TRAIN_BATCH_SIZE := 4;
     util_VERBOSE := false |}.

(** A one-feature instance of the external capabilities: an example is
    vectorized to its zone id, fitting keeps the sum of the labels, and
    the prediction for zone [x] is [x - sum]. *)
Definition zone_external : External :=
  {| Matrix := list Z;
     Vocabulary := unit;
     Fitted := Z;
     build_vocabulary := fun _ _ => tt;
     vectorize := fun _ _ rows => map zone_id rows;
     estimator_fit := fun _ _ y => fold_right Z.add 0 y;
     estimator_predict := fun _ w X => map (fun x => IZR (x - w)) X |}.

(** A fitted LinearRegression over [zone_external]: what [train] leaves
    on Dataset(0.7, 20) over [january]. *)
Definition fitted_linear : Model.t zone_external :=
  Model.LinearRegression
    {| RegressionModel.db := answering [];
       RegressionModel.table_name := "pickups_aggregated";
       RegressionModel.regressor :=
         {| Regressor.kind :=
              SGDRegressor 1000 0 "invscaling" (1 # 10) (1 # 10) 0;
            Regressor.learned := Some (210 : Fitted zone_external) |};
       RegressionModel.feature_extractor :=
         {| FeatureExtractor.sparse := true;
            FeatureExtractor.vocabulary :=
              Some (tt : Vocabulary zone_external) |} |}.

(** ** Notions used to state the properties *)

(** How many rows of a table carry a given id. *)
Definition count_id (i : Z) (rows : list Example) : nat :=
  List.length (filter (fun row => id row =? i) rows).

(** Every id of [1..n] is carried by exactly one row. *)
Definition dense (rows : list Example) (n : Z) : bool :=
  forallb (fun i => (count_id (Z.of_nat i) rows =? 1)%nat)
    (seq 1 (Z.to_nat n)).

(** The id at which [getTestExample] fetches: the cursor, moved past the
    train region if it is still inside it. *)
Definition test_fetch_id (self : Dataset.t) : Z :=
  if Dataset.current_example_id self <=? Dataset.last_train_id self
  then Dataset.last_train_id self + 1
  else Dataset.current_example_id self.

(** The outcome is the exception of [getTestExample]. *)
Definition is_out_of_range {A : Type} (r : result A) : Prop :=
  exists example_id dataset_size,
    r = Raise (OutOfRangeError example_id dataset_size).

(** The number of rows a call returns equals the distance the cursor
    moves. *)
Definition advanced_by_rows_returned (self : Dataset.t) (batch_size : Z)
    : Prop :=
  Dataset.current_example_id (snd (Dataset.getTrainExamples self batch_size))
  = Dataset.current_example_id self
    + Z.of_nat (List.length (fst (Dataset.getTrainExamples self batch_size))).

(** The RegressionModel inside a fitted variant. *)
Definition regression_part {ext : External} (self : Model.t ext)
    : option (RegressionModel.t ext) :=
  match self with
  | Model.LinearRegression m
  | Model.SupportVectorRegression m
  | Model.DecisionTreeRegression m => Some m
  | Model.BetterBaseline _ | Model.Baseline _ => None
  end.

(** The database object a baseline asks, and the query it issues for an
    example; the answer to it. *)
Definition baseline_query {ext : External} (self : Model.t ext)
    (dataset : Dataset.t) (test_example : Example)
    : option (QueryDatabase * AggregateQuery) :=
  match self with
  | Model.BetterBaseline m =>
      Some (BetterBaseline.db m,
            BetterBaseline.query m dataset test_example)
  | Model.Baseline m =>
      Some (Baseline.db m, Baseline.query m dataset test_example)
  | _ => None
  end.

Definition baseline_rows {ext : External} (self : Model.t ext)
    (dataset : Dataset.t) (test_example : Example)
    : option (list AggregateRow) :=
  match baseline_query self dataset test_example with
  | Some (database, query) => Some (database query false)
  | None => None
  end.



(** "Repeatedly calls getTestExample while hasMoreTestExamples is true":
    the run of that loop from a Dataset state, with the examples it
    yields, how it ends and the state it leaves. *)
Inductive test_run
    : Dataset.t -> list Example -> result unit -> Dataset.t -> Prop :=
| test_run_done (self : Dataset.t) :
    Dataset.hasMoreTestExamples self = false ->
    test_run self [] (Ok tt) self
| test_run_next (self self1 self2 : Dataset.t) (example : Example)
    (examples : list Example) (ending : result unit) :
    Dataset.hasMoreTestExamples self = true ->
    Dataset.getTestExample self = (Ok example, self1) ->
    test_run self1 examples ending self2 ->
    test_run self (example :: examples) ending self2
| test_run_raise (self self1 : Dataset.t) (e : exn) :
    Dataset.hasMoreTestExamples self = true ->
    Dataset.getTestExample self = (Raise e, self1) ->
    test_run self [] (Raise e) self1.

(** One prediction for each example, in order, stopping at the first
    exception. *)
Fixpoint predict_each (predict : Example -> result R)
    (examples : list Example) : result (list R) :=
  match examples with
  | [] => Ok []
  | example :: examples =>
      do y <- predict example;
      do ys <- predict_each predict examples;
      Ok (y :: ys)
  end.

(** The ids [lo, lo + 1, ..., lo + n - 1]. *)
Definition Zrange (lo : Z) (n : nat) : list Z :=
  map (fun k => lo + Z.of_nat k) (seq 0 n).

(** A call that asks for a batch asks for a non-negative number of
    examples. *)
Definition sensible_call (c : call) : Prop :=
  match c with
  | CallGetTrainExamples batch_size => 0 <= batch_size
  | CallGetTestExample => True
  end.

(** The weight of a feature is at most the weight of another. *)
Definition lighter (a b : string * Q) : Prop := (snd a <= snd b)%Q.

(** The entry of the feature dictionary and the (name, weight) pair made
    from it. *)
Definition weighs (coef_ : list Q) (item : string * Z)
    (feature_weight : string * Q) : Prop :=
  fst feature_weight = fst item /\
  getitem coef_ (snd item) = Ok (snd feature_weight).

(** An index that [coef_[index]] accepts. *)
Definition valid_index (coef_ : list Q) (item : string * Z) : Prop :=
  - Z.of_nat (List.length coef_) <= snd item < Z.of_nat (List.length coef_).

(** Five weights and a dictionary over them, for the examples. *)
Definition five_weights : list Q := [3 # 1; -2 # 1; 0 # 1; 7 # 2; -1 # 2].

Definition five_features : list (string * Z) :=
  [("zone"%string, 0); ("hour"%string, 1); ("day"%string, 2);
   ("month"%string, 3); ("rain"%string, -1)].

(** * Properties *)

(** ** The split made by the constructor *)








(** ** Range fetches *)

Lemma between_iff (lo hi : Z) (row : Example) :
  between lo hi row = true <-> lo <= id row <= hi.
Proof.
  unfold between. rewrite andb_true_iff, !Z.leb_le. tauto.
Qed.

Lemma _getExamples_In (self : Dataset.t) (start_id num_examples : Z)
    (row : Example) :
  In row (Dataset._getExamples self start_id num_examples) <->
  In row (Dataset.db self (Dataset.table_name self)) /\
  start_id <= id row <= start_id + num_examples - 1.
Proof.
  unfold Dataset._getExamples. rewrite filter_In, between_iff. tauto.
Qed.

Lemma _getExamples_set_cursor (self : Dataset.t) (i start_id n : Z) :
  Dataset._getExamples (Dataset.set_current_example_id self i) start_id n
  = Dataset._getExamples self start_id n.
Proof. reflexivity. Qed.

(** ** getTestExample *)

Lemma getTestExample_unfold (self : Dataset.t) :
  Dataset.getTestExample self =
  if Dataset.current_example_id self >? Dataset.last_test_id self then
    (Raise (OutOfRangeError (Dataset.current_example_id self)
              (Dataset.last_test_id self)), self)
  else
    match Dataset._getExamples self (test_fetch_id self) 1 with
    | [] =>
        (Raise IndexError,
         if Dataset.current_example_id self <=? Dataset.last_train_id self
         then Dataset.set_current_example_id self (test_fetch_id self)
         else self)
    | example :: _ =>
        (Ok example,
         Dataset.set_current_example_id self (test_fetch_id self + 1))
    end.
Proof.
  unfold Dataset.getTestExample, test_fetch_id.
  destruct (Dataset.current_example_id self >? Dataset.last_test_id self);
    [reflexivity |].
  destruct (Dataset.current_example_id self <=? Dataset.last_train_id self);
    simpl; rewrite ?_getExamples_set_cursor;
    destruct (Dataset._getExamples self _ 1); reflexivity.
Qed.

Lemma getTestExample_returns (self : Dataset.t) (row : Example) :
  fst (Dataset.getTestExample self) = Ok row ->
  Dataset.current_example_id self <= Dataset.last_test_id self /\
  id row = test_fetch_id self /\
  Dataset.current_example_id (snd (Dataset.getTestExample self))
    = test_fetch_id self + 1 /\
  fst (Dataset.getTestExample self)
    = item0 (Dataset._getExamples self (test_fetch_id self) 1).
Proof.
  rewrite getTestExample_unfold.
  destruct (Z.gtb_spec (Dataset.current_example_id self)
              (Dataset.last_test_id self)) as [Hgt | Hle];
    [discriminate |].
  destruct (Dataset._getExamples self (test_fetch_id self) 1)
    as [| example rest] eqn:Hfetch; simpl; [discriminate |].
  intros Hrow; injection Hrow as ->.
  assert (Hin : In row (Dataset._getExamples self (test_fetch_id self) 1))
    by (rewrite Hfetch; left; reflexivity).
  apply _getExamples_In in Hin. repeat split; try lia. 
Qed.

Lemma getTestExample_raises_out_of_range (self : Dataset.t) :
  is_out_of_range (fst (Dataset.getTestExample self)) <->
  Dataset.last_test_id self < Dataset.current_example_id self.
Proof.
  rewrite getTestExample_unfold.
  destruct (Z.gtb_spec (Dataset.current_example_id self)
              (Dataset.last_test_id self)) as [Hgt | Hle].
  - split; [intros _; lia | intros _; simpl; eexists; eexists; reflexivity].
  - split; [| lia].
    intros [a [b H]].
    destruct (Dataset._getExamples self (test_fetch_id self) 1);
      simpl in H; discriminate.
Qed.

Lemma test_fetch_id_past_train (self : Dataset.t) :
  Dataset.last_train_id self < test_fetch_id self /\
  Dataset.current_example_id self <= test_fetch_id self.
Proof.
  unfold test_fetch_id.
  destruct (Z.leb_spec (Dataset.current_example_id self)
              (Dataset.last_train_id self)); lia.
Qed.

(** With a train fraction of 1 the fast-forward passes last_test_id: the
    first call fetches at id 21 although the Dataset ends at 20. *)
Example getTestExample_full_train :
  let self := Dataset.__init__ january 1 20 AGGREGATED_PICKUPS in
  Dataset.last_train_id self = 20 /\
  Dataset.getTestExample self
    = (Raise IndexError, Dataset.set_current_example_id self 21).
Proof. split; reflexivity. Qed.

(** ** Calls keep the split *)

Lemma perform_keeps_split (self : Dataset.t) (c : call) :
  Dataset.last_train_id (perform self c) = Dataset.last_train_id self /\
  Dataset.last_test_id (perform self c) = Dataset.last_test_id self /\
  Dataset.db (perform self c) = Dataset.db self /\
  Dataset.table_name (perform self c) = Dataset.table_name self.
Proof.
  destruct c as [batch_size |]; simpl.
  - repeat split.
  - rewrite getTestExample_unfold.
    destruct (_ >? _); [repeat split |].
    destruct (Dataset._getExamples self (test_fetch_id self) 1); simpl;
      [destruct (_ <=? _) |]; repeat split.
Qed.




(** The scenario of the specification: called first on Dataset(0.7, 20),
    getTestExample returns the row with id 15 and leaves the cursor at
    16. *)
Example getTestExample_first_call :
  let self := Dataset.__init__ january (7 # 10) 20 AGGREGATED_PICKUPS in
  fst (Dataset.getTestExample self) = Ok (row_with_id 15) /\
  Dataset.current_example_id (snd (Dataset.getTestExample self)) = 16.
Proof. split; reflexivity. Qed.

(** ** getTrainExamples *)

Lemma count_id_of_dense (rows : list Example) (n i : Z) :
  dense rows n = true -> 1 <= i <= n -> count_id i rows = 1%nat.
Proof.
  unfold dense; intros Hdense Hi.
  rewrite forallb_forall in Hdense.
  specialize (Hdense (Z.to_nat i)).
  rewrite Z2Nat.id in Hdense by lia.
  apply Nat.eqb_eq, Hdense, in_seq. lia.
Qed.

Lemma filter_between_empty (rows : list Example) (lo hi : Z) :
  hi < lo -> filter (between lo hi) rows = [].
Proof.
  intros Hlt; induction rows as [| row rows IH]; simpl; [reflexivity |].
  destruct (between lo hi row) eqn:Hb; [| exact IH].
  apply between_iff in Hb. lia.
Qed.

Lemma filter_between_last (rows : list Example) (lo hi : Z) :
  lo <= hi ->
  List.length (filter (between lo hi) rows)
  = (List.length (filter (between lo (hi - 1)) rows) + count_id hi rows)%nat.
Proof.
  intros Hle; unfold count_id.
  induction rows as [| row rows IH]; simpl; [reflexivity |].
  assert (Hrow : between lo hi row
                 = between lo (hi - 1) row || (id row =? hi)).
  { unfold between.
    destruct (Z.leb_spec lo (id row)), (Z.leb_spec (id row) hi),
      (Z.leb_spec (id row) (hi - 1)), (Z.eqb_spec (id row) hi);
      simpl; try reflexivity; lia. }
  assert (Hdisjoint : between lo (hi - 1) row && (id row =? hi) = false).
  { unfold between.
    destruct (Z.leb_spec lo (id row)), (Z.leb_spec (id row) (hi - 1)),
      (Z.eqb_spec (id row) hi); simpl; try reflexivity; lia. }
  rewrite Hrow.
  destruct (between lo (hi - 1) row), (id row =? hi); simpl in *;
    try discriminate; lia.
Qed.

Lemma filter_between_dense (rows : list Example) (n lo : Z) (k : nat) :
  dense rows n = true -> 1 <= lo -> lo + Z.of_nat k - 1 <= n ->
  List.length (filter (between lo (lo + Z.of_nat k - 1)) rows) = k.
Proof.
  intros Hdense Hlo; induction k as [| k IH]; intros Hhi.
  - rewrite filter_between_empty by lia. reflexivity.
  - rewrite filter_between_last by lia.
    replace (lo + Z.of_nat (S k) - 1 - 1) with (lo + Z.of_nat k - 1) by lia.
    rewrite IH by lia.
    rewrite (count_id_of_dense rows n) by (assumption || lia). lia.
Qed.

Lemma effective_batch_size_cases (self : Dataset.t) (batch_size : Z) :
  (Dataset.current_example_id self + batch_size - 1
     > Dataset.last_train_id self /\
   Dataset.effective_batch_size self batch_size
     = Dataset.last_train_id self - Dataset.current_example_id self + 1) \/
  (Dataset.current_example_id self + batch_size - 1
     <= Dataset.last_train_id self /\
   Dataset.effective_batch_size self batch_size = batch_size).
Proof.
  unfold Dataset.effective_batch_size.
  destruct (Z.gtb_spec (Dataset.current_example_id self + batch_size - 1)
              (Dataset.last_train_id self)); [left | right]; lia.
Qed.

Lemma getTrainExamples_in_train_region (self : Dataset.t) (batch_size : Z)
    (row : Example) :
  In row (fst (Dataset.getTrainExamples self batch_size)) ->
  Dataset.current_example_id self <= id row /\
  (Dataset.current_example_id self <= Dataset.last_train_id self ->
   id row <= Dataset.last_train_id self).
Proof.
  unfold Dataset.getTrainExamples; cbn [fst].
  intros Hin. apply _getExamples_In in Hin.
  destruct (effective_batch_size_cases self batch_size) as [[Hx He] | [Hx He]];
    rewrite He in Hin; lia.
Qed.

(** C2, as the code has it.  With the cursor at or before last_train_id,
    getTrainExamples(batch_size) returns, for every batch_size, only rows
    whose id lies between the cursor and last_train_id; when the
    requested window would cross last_train_id the batch is exactly the
    rows of the table from the cursor to last_train_id and the cursor ends
    at last_train_id + 1; and for batch_size >= 0, a cursor >= 1 and a
    table that holds exactly one row for each id of 1..last_train_id, the
    cursor is advanced by the number of rows returned. *)
Theorem getTrainExamples_truncates (self : Dataset.t) (batch_size : Z) :
  Dataset.current_example_id self <= Dataset.last_train_id self ->
  let examples := fst (Dataset.getTrainExamples self batch_size) in
  let after := snd (Dataset.getTrainExamples self batch_size) in
  (forall row, In row examples ->
     Dataset.current_example_id self <= id row <= Dataset.last_train_id self)
  /\
  (Dataset.current_example_id self + batch_size - 1
     > Dataset.last_train_id self ->
   examples
     = filter (between (Dataset.current_example_id self)
                 (Dataset.last_train_id self))
         (Dataset.db self (Dataset.table_name self)) /\
   Dataset.current_example_id after = Dataset.last_train_id self + 1) /\
  (0 <= batch_size -> 1 <= Dataset.current_example_id self ->
   dense (Dataset.db self (Dataset.table_name self))
     (Dataset.last_train_id self) = true ->
   advanced_by_rows_returned self batch_size).
Proof.
  intros Hcursor examples after. unfold examples, after.
  unfold advanced_by_rows_returned, Dataset.getTrainExamples; simpl.
  destruct (effective_batch_size_cases self batch_size) as [[Hx He] | [Hx He]];
    rewrite He; (split; [| split]).
  - intros row Hin. apply _getExamples_In in Hin. lia.
  - intros _. split; [| lia]. unfold Dataset._getExamples.
    f_equal. f_equal. lia.
  - intros Hbs Hone Hdense. unfold Dataset._getExamples.
    set (k := Z.to_nat (Dataset.last_train_id self
                        - Dataset.current_example_id self + 1)).
    replace (Dataset.last_train_id self - Dataset.current_example_id self + 1)
      with (Z.of_nat k) by (unfold k; lia).
    rewrite (filter_between_dense _ (Dataset.last_train_id self))
      by (assumption || unfold k; lia).
    reflexivity.
  - intros row Hin. apply _getExamples_In in Hin. lia.
  - intros Hcross. lia.
  - intros Hbs Hone Hdense. unfold Dataset._getExamples.
    replace batch_size with (Z.of_nat (Z.to_nat batch_size)) at 1 2 by lia.
    rewrite (filter_between_dense _ (Dataset.last_train_id self))
      by (assumption || lia).
    lia.
Qed.

Lemma getTrainExamples_truncates_witness :
  let self :=
    perform_all (Dataset.__init__ january (7 # 10) 20 AGGREGATED_PICKUPS)
      [CallGetTrainExamples 4; CallGetTrainExamples 4;
       CallGetTrainExamples 4] in
  Dataset.current_example_id self <= Dataset.last_train_id self /\
  fst (Dataset.getTrainExamples self 4) = [row_with_id 13; row_with_id 14] /\
  advanced_by_rows_returned self 4.
Proof.
  intros self.
  assert (Hcursor : Dataset.current_example_id self
                    <= Dataset.last_train_id self) by (vm_compute; discriminate).
  split; [exact Hcursor | split; [reflexivity |]].
  apply (getTrainExamples_truncates self 4 Hcursor).
  - lia.
  - vm_compute; discriminate.
  - reflexivity.
Defined.

(** C2 as stated fails in its last part.  A negative batch_size moves the
    cursor back although no row is returned; and over a table with holes
    the cursor moves by the batch size, not by the number of rows. *)
Lemma getTrainExamples_truncates_counterexample :
  (let self :=
     perform_all (Dataset.__init__ january (7 # 10) 20 AGGREGATED_PICKUPS)
       [CallGetTrainExamples 4] in
   Dataset.current_example_id self = 5 /\
   Dataset.last_train_id self = 14 /\
   Dataset.getTrainExamples self (-1)
     = ([], Dataset.set_current_example_id self 4) /\
   ~ advanced_by_rows_returned self (-1)) /\
  (let self :=
     Dataset.__init__ sparse_table (7 # 10) 20 AGGREGATED_PICKUPS in
   Dataset.current_example_id self = 1 /\
   Dataset.last_train_id self = 14 /\
   Dataset.getTrainExamples self 3
     = ([row_with_id 1], Dataset.set_current_example_id self 4) /\
   ~ advanced_by_rows_returned self 3).
Proof.
  split; intros self.
  - split; [reflexivity | split; [reflexivity | split; [reflexivity |]]].
    unfold advanced_by_rows_returned. vm_compute. discriminate.
  - split; [reflexivity | split; [reflexivity | split; [reflexivity |]]].
    unfold advanced_by_rows_returned. vm_compute. discriminate.
Qed.

(** ** The cursor *)

Lemma getTestExample_advances (self : Dataset.t) :
  Dataset.current_example_id self
  <= Dataset.current_example_id (snd (Dataset.getTestExample self)).
Proof.
  rewrite getTestExample_unfold.
  destruct (_ >? _); simpl; [lia |].
  pose proof (test_fetch_id_past_train self) as [_ H].
  destruct (Dataset._getExamples self (test_fetch_id self) 1); simpl;
    [| lia].
  unfold test_fetch_id in *. destruct (_ <=? _); simpl; lia.
Qed.

Lemma getTrainExamples_advances (self : Dataset.t) (batch_size : Z) :
  0 <= batch_size ->
  Dataset.current_example_id self <= Dataset.last_train_id self + 1 ->
  Dataset.current_example_id self
  <= Dataset.current_example_id
       (snd (Dataset.getTrainExamples self batch_size)).
Proof.
  intros Hbs Hcursor; simpl.
  destruct (effective_batch_size_cases self batch_size) as [[_ He] | [_ He]];
    rewrite He; lia.
Qed.

(** Once the cursor is more than one past the train region, every
    request whose window reaches past last_train_id puts it back to
    last_train_id + 1. *)
Lemma getTrainExamples_past_train_region (self : Dataset.t)
    (batch_size : Z) :
  Dataset.last_train_id self + 1 < Dataset.current_example_id self ->
  Dataset.current_example_id self + batch_size - 1
    > Dataset.last_train_id self ->
  Dataset.current_example_id (snd (Dataset.getTrainExamples self batch_size))
    = Dataset.last_train_id self + 1 /\
  fst (Dataset.getTrainExamples self batch_size) = [].
Proof.
  intros Hpast Hcross.
  unfold Dataset.getTrainExamples; cbn [fst snd].
  destruct (effective_batch_size_cases self batch_size) as [[_ He] | [Hx _]];
    [| lia].
  rewrite He; simpl. split; [lia |].
  unfold Dataset._getExamples. apply filter_between_empty. lia.
Qed.

(** C9 at its failing input.  On Dataset(0.7, 20) two getTestExample calls
    leave the cursor at 17; getTrainExamples(1) then computes the batch
    size 14 - 17 + 1 = -2, returns no row and puts the cursor back to
    15. *)
Theorem getTrainExamples_rewinds_cursor :
  let self :=
    perform_all (Dataset.__init__ january (7 # 10) 20 AGGREGATED_PICKUPS)
      [CallGetTestExample; CallGetTestExample] in
  Dataset.current_example_id self = 17 /\
  Dataset.effective_batch_size self 1 = -2 /\
  Dataset.getTrainExamples self 1
    = ([], Dataset.set_current_example_id self 15) /\
  Dataset.current_example_id (perform self (CallGetTrainExamples 1))
    < Dataset.current_example_id self.
Proof.
  intros self. repeat split.
Qed.

(** ** predict *)

Lemma RegressionModel_predict_clamps (ext : External)
    (m : RegressionModel.t ext) (test_example : Example) (y : R) :
  RegressionModel.predict m test_example = Ok y ->
  exists raw : R, y = Rmax 0 raw.
Proof.
  unfold RegressionModel.predict, FeatureExtractor.getFeatureVectors.
  destruct (FeatureExtractor.vocabulary (RegressionModel.feature_extractor m));
    simpl; [| discriminate].
  destruct (Regressor.predict (RegressionModel.regressor m) _);
    simpl; try discriminate.
  destruct a as [| raw rest]; simpl; [discriminate |].
  intros H; injection H as <-. exists raw; reflexivity.
Qed.

Lemma RegressionModel_predict_fitted (ext : External)
    (m : RegressionModel.t ext) (test_example : Example)
    (v : Vocabulary ext) (w : Fitted ext) :
  FeatureExtractor.vocabulary (RegressionModel.feature_extractor m) = Some v ->
  Regressor.learned (RegressionModel.regressor m) = Some w ->
  RegressionModel.predict m test_example =
  do raw <- item0 (estimator_predict ext
                     (Regressor.kind (RegressionModel.regressor m)) w
                     (vectorize ext
                        (FeatureExtractor.sparse
                           (RegressionModel.feature_extractor m))
                        v [test_example]));
  Ok (Rmax 0 raw).
Proof.
  intros Hv Hw.
  unfold RegressionModel.predict, FeatureExtractor.getFeatureVectors,
    Regressor.predict.
  rewrite Hv; simpl. rewrite Hw; simpl. reflexivity.
Qed.

Lemma Model_predict_regression (ext : External) (self : Model.t ext)
    (m : RegressionModel.t ext) (dataset : Dataset.t) (ex : Example) :
  regression_part self = Some m ->
  Model.predict self dataset ex = RegressionModel.predict m ex.
Proof.
  destruct self; simpl; intros H; try discriminate;
    injection H as ->; reflexivity.
Qed.

Lemma Model_predict_baseline (ext : External) (self : Model.t ext)
    (dataset : Dataset.t) (ex : Example) (rows : list AggregateRow) :
  baseline_rows self dataset ex = Some rows ->
  Model.predict self dataset ex
  = Ok (match rows with [row] => avg_num_pickups row | _ => 0%R end).
Proof.
  destruct self; simpl; intros H; try discriminate;
    injection H as <-; reflexivity.
Qed.

(** C3, as the code has it.  For the three fitted regression variants
    predict returns max(0.0, raw) for the estimator's raw output, so that
    whatever it returns is >= 0.0 and a negative raw output gives 0.0.
    The two baselines apply no clamp: they return 0.0 when the answer
    does not have exactly one row and that row's average otherwise, so
    their prediction is >= 0.0 whenever the averages in the answer are. *)
Theorem predict_nonnegative (ext : External) (self : Model.t ext)
    (dataset : Dataset.t) (test_example : Example) :
  (forall m, regression_part self = Some m ->
     (forall v w raw rest,
        FeatureExtractor.vocabulary (RegressionModel.feature_extractor m)
          = Some v ->
        Regressor.learned (RegressionModel.regressor m) = Some w ->
        estimator_predict ext (Regressor.kind (RegressionModel.regressor m)) w
          (vectorize ext
             (FeatureExtractor.sparse (RegressionModel.feature_extractor m))
             v [test_example]) = raw :: rest ->
        Model.predict self dataset test_example = Ok (Rmax 0 raw) /\
        ((raw < 0)%R -> Model.predict self dataset test_example = Ok 0%R)) /\
     (forall y, Model.predict self dataset test_example = Ok y ->
                (0 <= y)%R)) /\
  (forall rows, baseline_rows self dataset test_example = Some rows ->
     (forall row, In row rows -> (0 <= avg_num_pickups row)%R) ->
     forall y, Model.predict self dataset test_example = Ok y -> (0 <= y)%R).
Proof.
  split.
  - intros m Hm. rewrite (Model_predict_regression ext self m) by exact Hm.
    split.
    + intros v w raw rest Hv Hw Hraw.
      rewrite (RegressionModel_predict_fitted ext m test_example v w Hv Hw).
      rewrite Hraw; simpl. split; [reflexivity |].
      intros Hneg. rewrite Rmax_left by lra. reflexivity.
    + intros y Hy.
      destruct (RegressionModel_predict_clamps ext m test_example y Hy)
        as [raw ->].
      apply Rmax_l.
  - intros rows Hrows Hnonneg y.
    rewrite (Model_predict_baseline ext self dataset test_example rows Hrows).
    intros H; injection H as <-.
    destruct rows as [| row [| row' rest]]; try lra.
    apply Hnonneg. left; reflexivity.
Qed.

(** Training the linear variant on Dataset(0.7, 20) drains the fourteen
    train rows and leaves the fitted model; its prediction for row 15,
    whose raw value is negative, is 0. *)
Example train_then_predict :
  let dataset := Dataset.__init__ january (7 # 10) 20 AGGREGATED_PICKUPS in
  let untrained : Model.t zone_external :=
    Model.LinearRegression (LinearRegression.__init__ const_py (answering [])) in
  fst (Model.train const_py untrained dataset) = Ok fitted_linear /\
  Dataset.current_example_id (snd (Model.train const_py untrained dataset))
    = 15 /\
  Model.predict fitted_linear dataset (row_with_id 15) = Ok 0%R.
Proof.
  split; [reflexivity | split; [reflexivity |]].
  simpl. unfold RegressionModel.predict; simpl.
  rewrite Rmax_left by lra. reflexivity.
Qed.

Lemma predict_nonnegative_witness :
  let dataset := Dataset.__init__ january (7 # 10) 20 AGGREGATED_PICKUPS in
  Model.predict fitted_linear dataset (row_with_id 15) = Ok 0%R /\
  (forall y,
     Model.predict
       (Model.Baseline (ext := zone_external)
          (Baseline.__init__ const_py
             (answering [{| avg_num_pickups := 3 |}])))
       dataset (row_with_id 15) = Ok y ->
     (0 <= y)%R).
Proof.
  intros dataset. split.
  - refine (proj2 (proj1 (proj1 (predict_nonnegative zone_external
              fitted_linear dataset (row_with_id 15)) _ eq_refl)
              tt 210 (IZR (0 - 210)) [] eq_refl eq_refl eq_refl) _).
    simpl. lra.
  - refine (proj2 (predict_nonnegative zone_external
              (Model.Baseline
                 (Baseline.__init__ const_py
                    (answering [{| avg_num_pickups := 3 |}])))
              dataset (row_with_id 15))
              [{| avg_num_pickups := 3 |}] eq_refl _).
    intros row [<- | []]. simpl. lra.
Defined.

(** C3 as stated fails for the baselines: an answer whose single row has
    a negative average is returned as it is. *)
Lemma predict_nonnegative_counterexample :
  let dataset := Dataset.__init__ january (7 # 10) 20 AGGREGATED_PICKUPS in
  let database := answering [{| avg_num_pickups := (-1) |}] in
  Model.predict
    (Model.Baseline (ext := zone_external)
       (Baseline.__init__ const_py database))
    dataset (row_with_id 15) = Ok (-1)%R /\
  Model.predict
    (Model.BetterBaseline (ext := zone_external)
       (BetterBaseline.__init__ const_py database))
    dataset (row_with_id 15) = Ok (-1)%R /\
  ~ (0 <= -1)%R.
Proof.
  intros dataset database.
  split; [reflexivity | split; [reflexivity | lra]].
Qed.

(** C5, as the code has it.  A baseline's query is scoped to the train
    region (id <= last_train_id) and to the example's zone.  If the
    answer has no row the prediction is 0.0; if it has exactly one row
    the prediction is that row's average; if it has more than one row the
    prediction is 0.0 as well, and nothing is raised. *)
Theorem baseline_predict_cases (ext : External) (self : Model.t ext)
    (dataset : Dataset.t) (test_example : Example)
    (database : QueryDatabase) (query : AggregateQuery) :
  baseline_query self dataset test_example = Some (database, query) ->
  let rows := database query false in
  let prediction := Model.predict self dataset test_example in
  id_at_most query = Dataset.last_train_id dataset /\
  zone_id_is query = zone_id test_example /\
  (rows = [] -> prediction = Ok 0%R) /\
  (forall row, rows = [row] -> prediction = Ok (avg_num_pickups row)) /\
  ((1 < List.length rows)%nat -> prediction = Ok 0%R).
Proof.
  intros Hquery rows prediction.
  assert (Hrows : baseline_rows self dataset test_example = Some rows)
    by (unfold baseline_rows; rewrite Hquery; reflexivity).
  unfold prediction.
  rewrite (Model_predict_baseline ext self dataset test_example rows Hrows).
  split; [| split; [| split; [| split]]].
  - destruct self; simpl in Hquery; try discriminate;
      injection Hquery as _ <-; reflexivity.
  - destruct self; simpl in Hquery; try discriminate;
      injection Hquery as _ <-; reflexivity.
  - intros ->; reflexivity.
  - intros row ->; reflexivity.
  - destruct rows as [| row [| row' rest]]; simpl; intros Hlen;
      try lia; reflexivity.
Qed.

Lemma baseline_predict_cases_witness :
  let dataset := Dataset.__init__ january (7 # 10) 20 AGGREGATED_PICKUPS in
  let database := answering [{| avg_num_pickups := 3 |}] in
  Model.predict
    (Model.BetterBaseline (ext := zone_external)
       (BetterBaseline.__init__ const_py database))
    dataset (row_with_id 15) = Ok 3%R.
Proof.
  intros dataset database.
  refine (proj1 (proj2 (proj2 (proj2 (baseline_predict_cases zone_external
            (Model.BetterBaseline (BetterBaseline.__init__ const_py database))
            dataset (row_with_id 15) database _ eq_refl))))
            {| avg_num_pickups := 3 |} eq_refl).
Defined.

(** C5 as stated fails in its third case: with two rows in the answer
    both baselines return 0.0 and raise nothing. *)
Lemma baseline_predict_cases_counterexample :
  let dataset := Dataset.__init__ january (7 # 10) 20 AGGREGATED_PICKUPS in
  let database :=
    answering [{| avg_num_pickups := 3 |}; {| avg_num_pickups := 5 |}] in
  let baseline : Model.t zone_external :=
    Model.Baseline (Baseline.__init__ const_py database) in
  let better : Model.t zone_external :=
    Model.BetterBaseline (BetterBaseline.__init__ const_py database) in
  Model.predict baseline dataset (row_with_id 15) = Ok 0%R /\
  Model.predict better dataset (row_with_id 15) = Ok 0%R /\
  (forall e, Model.predict baseline dataset (row_with_id 15) <> Raise e) /\
  (forall e, Model.predict better dataset (row_with_id 15) <> Raise e).
Proof.
  intros dataset database baseline better.
  split; [reflexivity | split; [reflexivity | split]];
    intros e; discriminate.
Qed.


(** ** train *)

(** With a batch size of at least 1 the loop of [train] ends: it drains
    the train region, and every row it collects lies in that region. *)
Lemma collect_train_examples_ends (batch_size : Z) (fuel : nat) :
  1 <= batch_size ->
  forall (dataset : Dataset.t) (row_dicts : list Example),
    (RegressionModel.train_fuel dataset <= fuel)%nat ->
    exists examples after,
      RegressionModel.collect_train_examples fuel batch_size dataset
        row_dicts = (Ok (row_dicts ++ examples), after) /\
      Dataset.hasMoreTrainExamples after = false /\
      Dataset.last_train_id after = Dataset.last_train_id dataset /\
      Forall (fun row => id row <= Dataset.last_train_id dataset) examples.
Proof.
  intros Hbatch. unfold RegressionModel.train_fuel.
  induction fuel as [| fuel IH]; intros dataset row_dicts Hfuel; simpl;
    destruct (Dataset.hasMoreTrainExamples dataset) eqn:Hmore;
    try (exists [], dataset; rewrite app_nil_r;
         repeat split; [exact Hmore | constructor]).
  - unfold Dataset.hasMoreTrainExamples in Hmore.
    apply Z.leb_le in Hmore. lia.
  - unfold Dataset.hasMoreTrainExamples in Hmore. apply Z.leb_le in Hmore.
    set (step := Dataset.effective_batch_size dataset batch_size).
    assert (Hstep : 1 <= step)
      by (unfold step;
          destruct (effective_batch_size_cases dataset batch_size)
            as [[_ ->] | [_ ->]]; lia).
    set (examples :=
           Dataset._getExamples dataset
             (Dataset.current_example_id dataset) step).
    destruct (IH (Dataset.set_current_example_id dataset
                    (Dataset.current_example_id dataset + step))
                (row_dicts ++ examples))
      as (more & after & Hloop & Hdone & Hlast & Hin); [simpl; lia |].
    exists (examples ++ more), after.
    rewrite Hloop, app_assoc.
    split; [reflexivity | split; [exact Hdone | split; [exact Hlast |]]].
    apply Forall_app. split; [| exact Hin].
    apply Forall_forall. intros row Hrow.
    apply (getTrainExamples_in_train_region dataset batch_size row Hrow).
    exact Hmore.
Qed.

(** After [train], with a batch size of at least 1, the model is fitted,
    the train region is drained, and [predict] clamps the estimator's
    first output instead of raising ModelNotTrainedError. *)
Lemma train_then_predict_clamps (ext : External) (const : Const)
    (self : RegressionModel.t ext) (dataset : Dataset.t) :
  1 <= Const_TRAIN_BATCH_SIZE const ->
  exists (fitted : RegressionModel.t ext) (after : Dataset.t)
         (v : Vocabulary ext) (w : Fitted ext),
    RegressionModel.train const self dataset = (Ok fitted, after) /\
    Dataset.hasMoreTrainExamples after = false /\
    forall test_example : Example,
      RegressionModel.predict fitted test_example
      = do raw <- item0 (estimator_predict ext
                           (Regressor.kind (RegressionModel.regressor self))
                           w
                           (vectorize ext
                              (FeatureExtractor.sparse
                                 (RegressionModel.feature_extractor self))
                              v [test_example]));
        Ok (Rmax 0 raw).
Proof.
  intros Hbatch.
  destruct (collect_train_examples_ends (Const_TRAIN_BATCH_SIZE const)
              (RegressionModel.train_fuel dataset) Hbatch dataset []
              (Nat.le_refl _))
    as (examples & after & Hloop & Hdone & _ & _).
  unfold RegressionModel.train. rewrite Hloop. simpl.
  do 4 eexists. split; [reflexivity | split; [exact Hdone |]].
  intros test_example.
  erewrite RegressionModel_predict_fitted by reflexivity. reflexivity.
Qed.

(** ** evaluatePredictions *)



Lemma squared_errors_cons (a b : R) (y_true y_pred : list R) :
  squared_errors (a :: y_true) (b :: y_pred)
  = Rsqr (a - b) :: squared_errors y_true y_pred.
Proof. reflexivity. Qed.



Lemma mean_squared_error_defined (y_true y_pred : list R) :
  List.length y_true = List.length y_pred -> y_true <> [] ->
  mean_squared_error y_true y_pred
  = Ok (Rsum (squared_errors y_true y_pred) / INR (List.length y_true))%R.
Proof.
  intros Hlen Hne. unfold mean_squared_error.
  rewrite Hlen, Nat.eqb_refl; simpl.
  destruct y_true; [contradiction | reflexivity].
Qed.

Lemma evaluatePredictions_defined (y_true y_pred : list R) :
  List.length y_true = List.length y_pred -> y_true <> [] ->
  Evaluator.evaluatePredictions y_true y_pred
  = Ok {| true_line := y_true;
          predicted_line := y_pred;
          rms := sqrt (Rsum (squared_errors y_true y_pred)
                       / INR (List.length y_true)) |}.
Proof.
  intros Hlen Hne. unfold Evaluator.evaluatePredictions.
  rewrite (mean_squared_error_defined y_true y_pred Hlen Hne).
  rewrite Hlen, Nat.eqb_refl; reflexivity.
Qed.




(** ** evaluate *)

Lemma getTestExample_moves_on (self self1 : Dataset.t) (example : Example) :
  Dataset.getTestExample self = (Ok example, self1) ->
  Dataset.current_example_id self < Dataset.current_example_id self1 /\
  Dataset.last_test_id self1 = Dataset.last_test_id self.
Proof.
  intros Hcall.
  assert (Hfst : fst (Dataset.getTestExample self) = Ok example)
    by (rewrite Hcall; reflexivity).
  destruct (getTestExample_returns self example Hfst) as (_ & _ & Hcur & _).
  rewrite Hcall in Hcur; simpl in Hcur.
  pose proof (test_fetch_id_past_train self) as [_ Hfetch].
  pose proof (perform_keeps_split self CallGetTestExample) as (_ & Htest & _).
  simpl in Htest. rewrite Hcall in Htest; simpl in Htest.
  split; [lia | exact Htest].
Qed.

(** With as much fuel as there are ids from the cursor to last_test_id,
    the loop of generateTestData is a run of [test_run]. *)
Lemma collect_test_examples_run (fuel : nat) :
  forall (dataset : Dataset.t) (test_data : list Example)
         (true_num_pickups : list Z),
    (Model.test_fuel dataset <= fuel)%nat ->
    exists examples ending after,
      test_run dataset examples ending after /\
      ending <> NoFuel /\
      Model.collect_test_examples fuel dataset test_data true_num_pickups
      = (do _ <- ending;
         Ok (test_data ++ examples,
             true_num_pickups ++ map num_pickups examples),
         after).
Proof.
  unfold Model.test_fuel.
  induction fuel as [| fuel IH]; intros dataset test_data labels Hfuel;
    simpl; destruct (Dataset.hasMoreTestExamples dataset) eqn:Hmore.
  - unfold Dataset.hasMoreTestExamples in Hmore.
    apply Z.leb_le in Hmore. lia.
  - exists [], (Ok tt), dataset.
    split; [constructor; exact Hmore | split; [discriminate |]].
    simpl. rewrite !app_nil_r. reflexivity.
  - destruct (Dataset.getTestExample dataset) as [[example | e |] self1]
      eqn:Hcall.
    + destruct (getTestExample_moves_on dataset self1 example Hcall)
        as [Hcur Htest].
      destruct (IH self1 (test_data ++ [example])
                  (labels ++ [num_pickups example]))
        as (examples & ending & after & Hrun & Hend & Hloop);
        [rewrite Htest; lia |].
      exists (example :: examples), ending, after.
      split; [econstructor; eassumption | split; [exact Hend |]].
      rewrite Hloop. destruct ending; simpl; try reflexivity.
      rewrite <- !app_assoc. reflexivity.
    + exists [], (Raise e), self1.
      split; [eapply test_run_raise; eassumption |].
      split; [discriminate | reflexivity].
    + exfalso. rewrite getTestExample_unfold in Hcall.
      destruct (_ >? _); [discriminate |].
      destruct (Dataset._getExamples dataset (test_fetch_id dataset) 1);
        discriminate.
  - exists [], (Ok tt), dataset.
    split; [constructor; exact Hmore | split; [discriminate |]].
    simpl. rewrite !app_nil_r. reflexivity.
Qed.

Lemma predict_all_each (predict : Example -> result R)
    (examples : list Example) :
  forall predicted : list R,
    Evaluator.predict_all predict examples predicted
    = do ys <- predict_each predict examples; Ok (predicted ++ ys).
Proof.
  induction examples as [| example examples IH]; intros predicted; simpl.
  - rewrite app_nil_r. reflexivity.
  - destruct (predict example) as [y | e |]; simpl; try reflexivity.
    rewrite IH. destruct (predict_each predict examples); simpl;
      try reflexivity.
    rewrite <- app_assoc. reflexivity.
Qed.

Lemma predict_each_Ok (predict : Example -> result R)
    (examples : list Example) :
  forall predicted : list R,
    predict_each predict examples = Ok predicted ->
    Forall2 (fun example y => predict example = Ok y) examples predicted.
Proof.
  induction examples as [| example examples IH]; intros predicted; simpl.
  - intros H; injection H as <-. constructor.
  - destruct (predict example) as [y | e |] eqn:Hy; simpl; try discriminate.
    destruct (predict_each predict examples) as [ys | e |]; simpl;
      try discriminate.
    intros H; injection H as <-. constructor; [exact Hy | apply IH].
    reflexivity.
Qed.

Lemma predict_each_not_cut (predict : Example -> result R)
    (examples : list Example) :
  (forall example, predict example <> NoFuel) ->
  predict_each predict examples <> NoFuel.
Proof.
  intros Hpredict.
  induction examples as [| example examples IH]; simpl; [discriminate |].
  specialize (Hpredict example).
  destruct (predict example); simpl; try congruence.
  destruct (predict_each predict examples); simpl; congruence.
Qed.

Lemma Model_predict_not_cut (ext : External) (self : Model.t ext)
    (dataset : Dataset.t) (example : Example) :
  Model.predict self dataset example <> NoFuel.
Proof.
  destruct self; simpl; try discriminate;
    unfold RegressionModel.predict, FeatureExtractor.getFeatureVectors,
      Regressor.predict;
    destruct (FeatureExtractor.vocabulary _); simpl; try discriminate;
    destruct (Regressor.learned _); simpl; try discriminate;
    destruct (estimator_predict _ _ _ _); simpl; discriminate.
Qed.

Lemma evaluatePredictions_not_cut (y_true y_pred : list R) :
  Evaluator.evaluatePredictions y_true y_pred <> NoFuel.
Proof.
  unfold Evaluator.evaluatePredictions, mean_squared_error.
  destruct (negb _); [discriminate |]. simpl.
  destruct y_true; simpl; discriminate.
Qed.

(** C4.  evaluate gets its pairs from the run of getTestExample calls
    made while hasMoreTestExamples is true: the examples of that run, in
    order, give the true labels (each example's num_pickups) and the
    predicted labels (model.predict on each example), which are handed to
    evaluatePredictions; an exception of the run or of predict ends
    evaluate, and the loop always ends. *)
Theorem evaluate_collects_test_pairs (ext : External)
    (self : Evaluator.t ext) (dataset : Dataset.t) :
  exists examples ending after,
    test_run dataset examples ending after /\
    snd (Evaluator.evaluate self dataset) = after /\
    fst (Evaluator.evaluate self dataset)
    = (do _ <- ending;
       do predicted <-
         predict_each (Model.predict (Evaluator.model self) after) examples;
       Evaluator.evaluatePredictions
         (map (fun example => IZR (num_pickups example)) examples)
         predicted) /\
    fst (Evaluator.evaluate self dataset) <> NoFuel /\
    (forall report,
       fst (Evaluator.evaluate self dataset) = Ok report ->
       true_line report
         = map (fun example => IZR (num_pickups example)) examples /\
       Forall2
         (fun example y =>
            Model.predict (Evaluator.model self) after example = Ok y)
         examples (predicted_line report)).
Proof.
  destruct (collect_test_examples_run (Model.test_fuel dataset) dataset [] []
              (Nat.le_refl _))
    as (examples & ending & after & Hrun & Hend & Hloop).
  exists examples, ending, after.
  assert (Heval :
    Evaluator.evaluate self dataset
    = (do _ <- ending;
       do predicted <-
         predict_each (Model.predict (Evaluator.model self) after) examples;
       Evaluator.evaluatePredictions
         (map (fun example => IZR (num_pickups example)) examples)
         predicted, after)).
  { unfold Evaluator.evaluate, Model.generateTestData. rewrite Hloop.
    destruct ending as [[] | e |]; simpl; [| reflexivity | congruence].
    rewrite predict_all_each, map_map.
    destruct (predict_each _ examples); reflexivity. }
  rewrite Heval; simpl.
  split; [exact Hrun | split; [reflexivity | split; [reflexivity | split]]].
  - destruct ending as [[] | e |]; simpl; try congruence.
    pose proof (predict_each_not_cut
                  (Model.predict (Evaluator.model self) after) examples
                  (Model_predict_not_cut ext (Evaluator.model self) after))
      as Hcut.
    destruct (predict_each _ examples); simpl; try congruence.
    apply evaluatePredictions_not_cut.
  - intros report.
    destruct ending as [[] | e |]; simpl; try discriminate.
    destruct (predict_each _ examples) as [predicted | e |] eqn:Heach;
      simpl; try discriminate.
    unfold Evaluator.evaluatePredictions.
    destruct (negb _); [discriminate |].
    destruct (mean_squared_error _ predicted); simpl; try discriminate.
    intros H; injection H as <-; simpl.
    split; [reflexivity | apply predict_each_Ok; exact Heach].
Qed.

(** On Dataset(0.7, 20) over [january] the run yields the rows 15..20;
    with the baseline answering 30 for every query the report is made of
    the six labels 30, 32, .., 40 and six predictions of 30. *)
Example evaluate_on_january :
  let dataset := Dataset.__init__ january (7 # 10) 20 AGGREGATED_PICKUPS in
  let evaluator : Evaluator.t zone_external :=
    Evaluator.__init__
      (Model.Baseline
         (Baseline.__init__ const_py
            (answering [{| avg_num_pickups := 30 |}]))) in
  test_run dataset (map row_with_id [15; 16; 17; 18; 19; 20]) (Ok tt)
    (Dataset.set_current_example_id dataset 21) /\
  exists report,
    fst (Evaluator.evaluate evaluator dataset) = Ok report /\
    true_line report = [30; 32; 34; 36; 38; 40]%R /\
    predicted_line report = [30; 30; 30; 30; 30; 30]%R.
Proof.
  intros dataset evaluator. split.
  - simpl map.
    repeat (eapply test_run_next; [reflexivity | reflexivity |]).
    apply test_run_done. reflexivity.
  - eexists. split; [| split].
    + unfold Evaluator.evaluate. 
      change (Model.generateTestData dataset)
        with (Ok (map row_with_id [15; 16; 17; 18; 19; 20],
                  [30; 32; 34; 36; 38; 40]),
              Dataset.set_current_example_id dataset 21).
      cbn [fst Evaluator.predict_all map bind Model.predict evaluator
           Evaluator.model Evaluator.__init__ app].
      unfold Baseline.predict; simpl.
      unfold Evaluator.evaluatePredictions; simpl. reflexivity.
    + reflexivity.
    + reflexivity.
Qed.

(** ** Entry point *)

Lemma getModel_unknown (ext : External) (const : Const)
    (database : QueryDatabase) (model_name : string) :
  getModel (ext := ext) const database model_name
    = Raise (UnknownModelNameError model_name)
  <-> model_name <> "baseline"%string.
Proof.
  unfold getModel.
  destruct (String.eqb_spec model_name "baseline") as [-> | Hne].
  - split; [discriminate | intros H; contradiction H; reflexivity].
  - split; [intros _; exact Hne | reflexivity].
Qed.

(** C10, as the code has it.  getModel recognises the single name
    baseline: every other name, betterbaseline, linear, svr and dtr among
    them, raises the unknown-name exception, which ends main; and main
    called without a model name prints the usage line and exits with
    status 1. *)
Theorem main_selects_model (ext : External) (const : Const)
    (conn : Database) (database : QueryDatabase) :
  (forall model_name : string,
     getModel (ext := ext) const database model_name
       = Raise (UnknownModelNameError model_name)
     <-> model_name <> "baseline"%string) /\
  (forall model_name : string,
     In model_name ["betterbaseline"; "linear"; "svr"; "dtr"]%string ->
     getModel (ext := ext) const database model_name
       = Raise (UnknownModelNameError model_name)) /\
  (forall (program model_name : string) (rest : list string),
     model_name <> "baseline"%string ->
     main (ext := ext) const conn database (program :: model_name :: rest)
       = ([], Raise (UnknownModelNameError model_name))) /\
  (forall args : list string,
     (List.length args < 2)%nat ->
     main (ext := ext) const conn database args
       = (["Usage: taxi_pickups model"%string], Raise (SystemExit 1))).
Proof.
  split; [| split; [| split]].
  - intros model_name. apply getModel_unknown.
  - intros model_name Hin. apply getModel_unknown.
    simpl in Hin. intuition (subst; discriminate).
  - intros program model_name rest Hne.
    unfold main. cbn [List.length Nat.ltb Nat.leb nth].
    rewrite (proj2 (getModel_unknown ext const database model_name) Hne).
    reflexivity.
  - intros args Hlen. unfold main.
    apply Nat.ltb_lt in Hlen. rewrite Hlen. reflexivity.
Qed.

Lemma main_selects_model_witness :
  main (ext := zone_external) const_py january (answering [])
    ["taxi_pickups.py"; "svr"]%string
    = ([], Raise (UnknownModelNameError "svr")) /\
  main (ext := zone_external) const_py january (answering [])
    ["taxi_pickups.py"]%string
    = (["Usage: taxi_pickups model"%string], Raise (SystemExit 1)).
Proof.
  split.
  - apply (proj1 (proj2 (proj2 (main_selects_model zone_external const_py
             january (answering []))))).
    discriminate.
  - apply (proj2 (proj2 (proj2 (main_selects_model zone_external const_py
             january (answering []))))).
    simpl. lia.
Defined.

(** C10 as stated fails for four of the five names: getModel constructs
    no model for betterbaseline, linear, svr or dtr. *)
Lemma main_selects_model_counterexample :
  getModel (ext := zone_external) const_py (answering []) "betterbaseline"
    = Raise (UnknownModelNameError "betterbaseline") /\
  getModel (ext := zone_external) const_py (answering []) "linear"
    = Raise (UnknownModelNameError "linear") /\
  getModel (ext := zone_external) const_py (answering []) "svr"
    = Raise (UnknownModelNameError "svr") /\
  getModel (ext := zone_external) const_py (answering []) "dtr"
    = Raise (UnknownModelNameError "dtr") /\
  main (ext := zone_external) const_py january (answering [])
    ["taxi_pickups.py"; "linear"]%string
    = ([], Raise (UnknownModelNameError "linear")).
Proof.
  repeat split.
Qed.

(** * Further properties of the Dataset *)

(** X1.  Whatever the cursor and the batch size, getTrainExamples returns
    no row above last_train_id; and once the cursor is past last_train_id
    it returns no row at all. *)
Theorem getTrainExamples_never_test_row (self : Dataset.t) (batch_size : Z) :
  (forall row, In row (fst (Dataset.getTrainExamples self batch_size)) ->
               id row <= Dataset.last_train_id self) /\
  (Dataset.last_train_id self < Dataset.current_example_id self ->
   fst (Dataset.getTrainExamples self batch_size) = []).
Proof.
  unfold Dataset.getTrainExamples; cbn [fst]. split.
  - intros row Hin. apply _getExamples_In in Hin.
    destruct (effective_batch_size_cases self batch_size)
      as [[Hx He] | [Hx He]]; rewrite He in Hin; lia.
  - intros Hpast. unfold Dataset._getExamples.
    apply filter_between_empty.
    destruct (effective_batch_size_cases self batch_size)
      as [[Hx He] | [Hx He]]; rewrite He; lia.
Qed.

Lemma getTrainExamples_never_test_row_witness :
  let self :=
    perform_all (Dataset.__init__ january (7 # 10) 20 AGGREGATED_PICKUPS)
      [CallGetTestExample] in
  Dataset.last_train_id self < Dataset.current_example_id self /\
  fst (Dataset.getTrainExamples self 3) = [].
Proof.
  intros self.
  assert (Hpast : Dataset.last_train_id self
                  < Dataset.current_example_id self) by reflexivity.
  split; [exact Hpast |].
  exact (proj2 (getTrainExamples_never_test_row self 3) Hpast).
Defined.

Lemma getTrainExamples_stays_past_train (self : Dataset.t) (batch_size : Z) :
  0 <= batch_size ->
  Dataset.last_train_id self < Dataset.current_example_id self ->
  Dataset.last_train_id self
  < Dataset.current_example_id
      (snd (Dataset.getTrainExamples self batch_size)).
Proof.
  intros Hbs Hpast; simpl.
  destruct (effective_batch_size_cases self batch_size)
    as [[Hx He] | [Hx He]]; rewrite He; lia.
Qed.

Lemma perform_stays_past_train (self : Dataset.t) (c : call) :
  sensible_call c ->
  Dataset.hasMoreTrainExamples self = false ->
  Dataset.hasMoreTrainExamples (perform self c) = false.
Proof.
  unfold Dataset.hasMoreTrainExamples. rewrite !Z.leb_gt.
  intros Hcall Hpast.
  destruct (perform_keeps_split self c) as [-> _].
  destruct c as [batch_size |]; simpl perform.
  - apply getTrainExamples_stays_past_train; assumption.
  - pose proof (getTestExample_advances self). lia.
Qed.

(** X2.  Once hasMoreTrainExamples is false it stays false: no sequence
    of getTestExample calls and getTrainExamples calls with batch sizes
    >= 0 brings the cursor back into the train region. *)
Theorem train_region_not_reentered (calls : list call) (self : Dataset.t) :
  Forall sensible_call calls ->
  Dataset.hasMoreTrainExamples self = false ->
  Dataset.hasMoreTrainExamples (perform_all self calls) = false.
Proof.
  intros Hcalls; revert self.
  induction Hcalls as [| c calls Hc _ IH]; intros self Hpast; simpl.
  - exact Hpast.
  - apply IH. apply perform_stays_past_train; assumption.
Qed.

Lemma train_region_not_reentered_witness :
  let self :=
    perform_all (Dataset.__init__ january (7 # 10) 20 AGGREGATED_PICKUPS)
      [CallGetTestExample; CallGetTestExample] in
  Dataset.hasMoreTrainExamples
    (perform_all self
       [CallGetTrainExamples 1; CallGetTestExample; CallGetTrainExamples 0])
  = false.
Proof.
  intros self.
  apply (train_region_not_reentered
           [CallGetTrainExamples 1; CallGetTestExample;
            CallGetTrainExamples 0] self).
  - repeat constructor; simpl; lia.
  - reflexivity.
Defined.

(** ** The test loop *)

Lemma test_run_deterministic (self : Dataset.t) (examples : list Example)
    (ending : result unit) (after : Dataset.t) :
  test_run self examples ending after ->
  forall examples' ending' after',
    test_run self examples' ending' after' ->
    examples' = examples /\ ending' = ending /\ after' = after.
Proof.
  induction 1 as [self Hmore
                 | self self1 self2 example examples ending Hmore Hcall _ IH
                 | self self1 e Hmore Hcall];
    intros examples' ending' after' Hrun'; inversion Hrun'; subst;
    try congruence.
  - repeat split.
  - match goal with
    | H : Dataset.getTestExample self = (Ok _, _) |- _ =>
        rewrite Hcall in H; injection H as <- <-
    end.
    match goal with
    | H : test_run self1 _ _ _ |- _ => destruct (IH _ _ _ H) as (-> & -> & ->)
    end.
    repeat split.
  - match goal with
    | H : Dataset.getTestExample self = (Raise _, _) |- _ =>
        rewrite Hcall in H; injection H as <- <-
    end.
    repeat split.
Qed.

Lemma getTestExample_Ok (self self1 : Dataset.t) (example : Example) :
  Dataset.getTestExample self = (Ok example, self1) ->
  id example = test_fetch_id self /\
  Dataset.current_example_id self1 = test_fetch_id self + 1 /\
  Dataset.last_train_id self1 = Dataset.last_train_id self /\
  Dataset.last_test_id self1 = Dataset.last_test_id self /\
  In example (Dataset.db self (Dataset.table_name self)).
Proof.
  intros Hcall.
  assert (Hfst : fst (Dataset.getTestExample self) = Ok example)
    by (rewrite Hcall; reflexivity).
  destruct (getTestExample_returns self example Hfst)
    as (_ & Hid & Hcur & Hitem).
  rewrite Hcall in Hcur, Hitem; simpl in Hcur, Hitem.
  pose proof (perform_keeps_split self CallGetTestExample)
    as (Htrain & Htest & _).
  simpl in Htrain, Htest. rewrite Hcall in Htrain, Htest.
  repeat split; try assumption.
  destruct (Dataset._getExamples self (test_fetch_id self) 1)
    as [| row rest] eqn:Hfetch; simpl in Hitem; [discriminate |].
  injection Hitem as Hrow.
  assert (Hin : In row (Dataset._getExamples self (test_fetch_id self) 1))
    by (rewrite Hfetch; left; reflexivity).
  apply _getExamples_In in Hin. rewrite Hrow. apply Hin.
Qed.

Lemma test_run_ids (self : Dataset.t) (examples : list Example)
    (ending : result unit) (after : Dataset.t) :
  test_run self examples ending after ->
  Dataset.current_example_id self <= Dataset.current_example_id after /\
  Dataset.last_train_id after = Dataset.last_train_id self /\
  Forall (fun row =>
            Dataset.current_example_id self <= id row /\
            Dataset.last_train_id self < id row /\
            id row < Dataset.current_example_id after /\
            In row (Dataset.db self (Dataset.table_name self)))
    examples /\
  StronglySorted Z.lt (map id examples).
Proof.
  induction 1 as [self Hmore
                 | self self1 self2 example examples ending Hmore Hcall Hrun IH
                 | self self1 e Hmore Hcall].
  - repeat split; try lia; constructor.
  - destruct (getTestExample_Ok self self1 example Hcall)
      as (Hid & Hcur & Htrain & _ & Hin).
    destruct IH as (Hle & Hlast & Hall & Hsorted).
    pose proof (test_fetch_id_past_train self) as [Hpast Hfetch].
    pose proof (perform_keeps_split self CallGetTestExample)
      as (_ & _ & Hdb & Htable).
    simpl in Hdb, Htable. rewrite Hcall in Hdb, Htable; simpl in Hdb, Htable.
    split; [lia | split; [congruence | split]].
    + constructor; [repeat split; try lia; exact Hin |].
      eapply Forall_impl; [| exact Hall].
      intros row (H1 & H2 & H3 & H4).
      rewrite Hdb, Htable in H4. repeat split; try lia; exact H4.
    + simpl. constructor; [exact Hsorted |].
      apply Forall_map.
      eapply Forall_impl; [| exact Hall].
      intros row (H1 & _). simpl. lia.
  - pose proof (getTestExample_advances self) as Hadv.
    pose proof (perform_keeps_split self CallGetTestExample) as (Htrain & _).
    simpl in Htrain. rewrite Hcall in Hadv, Htrain; simpl in Hadv, Htrain.
    repeat split; try assumption; constructor.
Qed.

(** X3.  Along a run of the test loop (getTestExample while
    hasMoreTestExamples is true) the ids of the returned rows strictly
    increase, so no row is served twice; every row is a row of the table
    with an id above last_train_id and at or after the cursor the run
    started from; and the cursor never moves back. *)
Theorem test_run_serves_each_row_once (self : Dataset.t)
    (examples : list Example) (ending : result unit) (after : Dataset.t) :
  test_run self examples ending after ->
  StronglySorted Z.lt (map id examples) /\
  NoDup examples /\
  Forall (fun row =>
            In row (Dataset.db self (Dataset.table_name self)) /\
            Dataset.last_train_id self < id row /\
            Dataset.current_example_id self <= id row)
    examples /\
  Dataset.current_example_id self <= Dataset.current_example_id after.
Proof.
  intros Hrun.
  destruct (test_run_ids self examples ending after Hrun)
    as (Hle & _ & Hall & Hsorted).
  split; [exact Hsorted | split; [| split; [| exact Hle]]].
  - assert (Hids : NoDup (map id examples)).
    { clear -Hsorted. induction Hsorted as [| i ids _ IH Hall];
        constructor; [| exact IH].
      intros Hin. rewrite Forall_forall in Hall.
      specialize (Hall i Hin). lia. }
    apply (NoDup_map_inv id). exact Hids.
  - eapply Forall_impl; [| exact Hall].
    intros row (H1 & H2 & _ & H4). repeat split; assumption.
Qed.

Lemma test_run_serves_each_row_once_witness :
  let self := Dataset.__init__ january (7 # 10) 20 AGGREGATED_PICKUPS in
  StronglySorted Z.lt (map id (map row_with_id [15; 16; 17; 18; 19; 20])).
Proof.
  intros self.
  assert (Hrun : test_run self (map row_with_id [15; 16; 17; 18; 19; 20])
                   (Ok tt) (Dataset.set_current_example_id self 21)).
  { simpl map.
    repeat (eapply test_run_next; [reflexivity | reflexivity |]).
    apply test_run_done. reflexivity. }
  exact (proj1 (test_run_serves_each_row_once self _ _ _ Hrun)).
Defined.

Lemma Zrange_S (lo : Z) (n : nat) :
  Zrange lo (S n) = lo :: Zrange (lo + 1) n.
Proof.
  unfold Zrange. cbn [seq map]. f_equal; [lia |].
  rewrite <- seq_shift, map_map. apply map_ext. intros k. lia.
Qed.

Lemma dense_single_row (rows : list Example) (n i : Z) :
  dense rows n = true -> 1 <= i <= n ->
  exists row, filter (between i (i + 1 - 1)) rows = [row].
Proof.
  intros Hdense Hi.
  pose proof (filter_between_dense rows n i 1 Hdense) as Hlen.
  change (Z.of_nat 1) with 1 in Hlen.
  specialize (Hlen ltac:(lia) ltac:(lia)).
  destruct (filter (between i (i + 1 - 1)) rows) as [| row [| row' rest]];
    try discriminate.
  exists row; reflexivity.
Qed.

Lemma getTestExample_fetches (self : Dataset.t) (row : Example)
    (rest : list Example) :
  Dataset.current_example_id self <= Dataset.last_test_id self ->
  Dataset._getExamples self (test_fetch_id self) 1 = row :: rest ->
  Dataset.getTestExample self
  = (Ok row, Dataset.set_current_example_id self (test_fetch_id self + 1)).
Proof.
  intros Hin Hfetch. rewrite getTestExample_unfold, Hfetch.
  destruct (Z.gtb_spec (Dataset.current_example_id self)
              (Dataset.last_test_id self)); [lia | reflexivity].
Qed.

Lemma test_fetch_id_cases (self : Dataset.t) :
  (Dataset.current_example_id self <= Dataset.last_train_id self /\
   test_fetch_id self = Dataset.last_train_id self + 1) \/
  (Dataset.last_train_id self < Dataset.current_example_id self /\
   test_fetch_id self = Dataset.current_example_id self).
Proof.
  unfold test_fetch_id.
  destruct (Z.leb_spec (Dataset.current_example_id self)
              (Dataset.last_train_id self)); [left | right]; lia.
Qed.

Lemma test_run_dense (n : nat) :
  forall self : Dataset.t,
    n = Z.to_nat (Dataset.last_test_id self - test_fetch_id self + 1) ->
    dense (Dataset.db self (Dataset.table_name self))
      (Dataset.last_test_id self) = true ->
    1 <= Dataset.current_example_id self <= Dataset.last_test_id self + 1 ->
    Dataset.last_train_id self < Dataset.last_test_id self ->
    exists examples after,
      test_run self examples (Ok tt) after /\
      map id examples = Zrange (test_fetch_id self) n /\
      Dataset.current_example_id after = Dataset.last_test_id self + 1.
Proof.
  induction n as [| n IH]; intros self Hn Hdense Hcur Hsplit;
    pose proof (test_fetch_id_past_train self) as [Hpast Hfetch];
    pose proof (test_fetch_id_cases self) as Hcases.
  - assert (Hend : Dataset.current_example_id self
                   = Dataset.last_test_id self + 1) by lia.
    exists [], self. split; [| split; [reflexivity | exact Hend]].
    constructor. unfold Dataset.hasMoreTestExamples. apply Z.leb_gt. lia.
  - assert (Hfetch_le : test_fetch_id self <= Dataset.last_test_id self)
      by lia.
    assert (Hin : Dataset.current_example_id self
                  <= Dataset.last_test_id self) by lia.
    assert (Hone : 1 <= test_fetch_id self) by lia.
    destruct (dense_single_row _ _ (test_fetch_id self) Hdense
                (conj Hone Hfetch_le)) as [row Hrow].
    pose proof (getTestExample_fetches self row [] Hin Hrow) as Hcall.
    destruct (getTestExample_Ok self _ row Hcall) as (Hid & _).
    set (self1 := Dataset.set_current_example_id self
                    (test_fetch_id self + 1)) in *.
    assert (Hfetch1 : test_fetch_id self1 = test_fetch_id self + 1).
    { unfold test_fetch_id at 1; simpl.
      destruct (Z.leb_spec (test_fetch_id self + 1)
                  (Dataset.last_train_id self)); [lia | reflexivity]. }
    destruct (IH self1) as (examples & after & Hrun & Hids & Hafter).
    + rewrite Hfetch1; simpl. lia.
    + exact Hdense.
    + simpl. lia.
    + exact Hsplit.
    + exists (row :: examples), after.
      split; [| split; [| exact Hafter]].
      * eapply test_run_next; [| exact Hcall | exact Hrun].
        unfold Dataset.hasMoreTestExamples. apply Z.leb_le. exact Hin.
      * simpl. rewrite Zrange_S, Hids, Hfetch1, Hid. reflexivity.
Qed.

(** X4.  Over a table that holds exactly one row for each id of
    1..last_test_id, with a non-empty test region and the cursor between
    1 and last_test_id, the test loop (getTestExample while
    hasMoreTestExamples is true) ends without an exception, yields the
    rows with the ids from the first test id not yet passed up to
    last_test_id, in order, and leaves the cursor at last_test_id + 1;
    this is its only run. *)
Theorem test_run_over_dense_table (self : Dataset.t) :
  dense (Dataset.db self (Dataset.table_name self))
    (Dataset.last_test_id self) = true ->
  1 <= Dataset.current_example_id self <= Dataset.last_test_id self ->
  Dataset.last_train_id self < Dataset.last_test_id self ->
  exists examples after,
    test_run self examples (Ok tt) after /\
    map id examples
      = Zrange (test_fetch_id self)
          (Z.to_nat (Dataset.last_test_id self - test_fetch_id self + 1)) /\
    Dataset.current_example_id after = Dataset.last_test_id self + 1 /\
    (forall examples' ending' after',
       test_run self examples' ending' after' ->
       examples' = examples /\ ending' = Ok tt /\ after' = after).
Proof.
  intros Hdense Hcur Hsplit.
  destruct (test_run_dense _ self eq_refl Hdense ltac:(lia) Hsplit)
    as (examples & after & Hrun & Hids & Hafter).
  exists examples, after.
  split; [exact Hrun | split; [exact Hids | split; [exact Hafter |]]].
  apply test_run_deterministic. exact Hrun.
Qed.

Lemma test_run_over_dense_table_witness :
  let self :=
    perform_all (Dataset.__init__ january (7 # 10) 20 AGGREGATED_PICKUPS)
      [CallGetTrainExamples 5] in
  exists examples after,
    test_run self examples (Ok tt) after /\
    map id examples = [15; 16; 17; 18; 19; 20] /\
    Dataset.current_example_id after = 21.
Proof.
  intros self.
  assert (Hdense : dense (Dataset.db self (Dataset.table_name self))
                     (Dataset.last_test_id self) = true) by reflexivity.
  assert (Hcur : 1 <= Dataset.current_example_id self
                 <= Dataset.last_test_id self)
    by (split; vm_compute; discriminate).
  assert (Hsplit : Dataset.last_train_id self < Dataset.last_test_id self)
    by reflexivity.
  destruct (test_run_over_dense_table self Hdense Hcur Hsplit)
    as (examples & after & Hrun & Hids & Hafter & _).
  exists examples, after.
  split; [exact Hrun | split; [exact Hids | exact Hafter]].
Defined.

(** X5.  When the train region reaches the end of the Dataset
    (last_test_id <= last_train_id, as with a train fraction of 1) and
    the cursor is still inside it, getTestExample does not raise its
    range exception: it fetches at last_train_id + 1, so a row it
    returns lies beyond last_test_id, and afterwards no test example is
    left. *)
Theorem getTestExample_beyond_last_test (self : Dataset.t) :
  Dataset.current_example_id self <= Dataset.last_test_id self ->
  Dataset.last_test_id self <= Dataset.last_train_id self ->
  ~ is_out_of_range (fst (Dataset.getTestExample self)) /\
  fst (Dataset.getTestExample self)
    = item0 (Dataset._getExamples self (Dataset.last_train_id self + 1) 1) /\
  (forall row, fst (Dataset.getTestExample self) = Ok row ->
               Dataset.last_test_id self < id row) /\
  Dataset.hasMoreTestExamples (snd (Dataset.getTestExample self)) = false.
Proof.
  intros Hcur Hfull.
  assert (Hfetch : test_fetch_id self = Dataset.last_train_id self + 1).
  { unfold test_fetch_id.
    destruct (Z.leb_spec (Dataset.current_example_id self)
                (Dataset.last_train_id self)); lia. }
  split; [| split; [| split]].
  - rewrite getTestExample_raises_out_of_range. lia.
  - rewrite getTestExample_unfold.
    destruct (Z.gtb_spec (Dataset.current_example_id self)
                (Dataset.last_test_id self)); [lia |].
    rewrite Hfetch.
    destruct (Dataset._getExamples self (Dataset.last_train_id self + 1) 1);
      reflexivity.
  - intros row Hrow.
    destruct (getTestExample_returns self row Hrow) as (_ & Hid & _). lia.
  - unfold Dataset.hasMoreTestExamples. apply Z.leb_gt.
    pose proof (perform_keeps_split self CallGetTestExample) as (_ & Htest & _).
    simpl in Htest. rewrite Htest.
    rewrite getTestExample_unfold.
    destruct (Z.gtb_spec (Dataset.current_example_id self)
                (Dataset.last_test_id self)); [lia |].
    rewrite Hfetch.
    destruct (Dataset._getExamples self (Dataset.last_train_id self + 1) 1);
      simpl.
    + destruct (Z.leb_spec (Dataset.current_example_id self)
                  (Dataset.last_train_id self)); simpl; lia.
    + lia.
Qed.

Lemma getTestExample_beyond_last_test_witness :
  let self :=
    Dataset.__init__ (fun _ => rows_upto 25) 1 20 AGGREGATED_PICKUPS in
  fst (Dataset.getTestExample self) = Ok (row_with_id 21) /\
  Dataset.last_test_id self < id (row_with_id 21).
Proof.
  intros self.
  assert (Hcur : Dataset.current_example_id self <= Dataset.last_test_id self)
    by (vm_compute; discriminate).
  assert (Hfull : Dataset.last_test_id self <= Dataset.last_train_id self)
    by (vm_compute; discriminate).
  split; [reflexivity |].
  apply (proj1 (proj2 (proj2 (getTestExample_beyond_last_test self
                                Hcur Hfull)))).
  reflexivity.
Defined.

(** X6.  When the table has no row with the id to fetch, getTestExample
    raises IndexError and leaves the cursor on that id without passing
    it; with a non-empty test region, calling it again gives the same
    exception and leaves the Dataset as it is. *)
Theorem getTestExample_missing_row (self : Dataset.t) :
  Dataset.current_example_id self <= Dataset.last_test_id self ->
  Dataset.last_train_id self < Dataset.last_test_id self ->
  (forall row, In row (Dataset.db self (Dataset.table_name self)) ->
               id row <> test_fetch_id self) ->
  let after := snd (Dataset.getTestExample self) in
  fst (Dataset.getTestExample self) = Raise IndexError /\
  Dataset.current_example_id after = test_fetch_id self /\
  Dataset.getTestExample after = (Raise IndexError, after).
Proof.
  intros Hcur Hsplit Hmissing.
  assert (Hempty : Dataset._getExamples self (test_fetch_id self) 1 = []).
  { destruct (Dataset._getExamples self (test_fetch_id self) 1)
      as [| row rest] eqn:Hfetch; [reflexivity |].
    assert (Hin : In row (Dataset._getExamples self (test_fetch_id self) 1))
      by (rewrite Hfetch; left; reflexivity).
    apply _getExamples_In in Hin. destruct Hin as [Hin Hid].
    exfalso. apply (Hmissing row Hin). lia. }
  pose proof (test_fetch_id_past_train self) as [Hpast Hfetch].
  cbv zeta. rewrite (getTestExample_unfold self), Hempty.
  destruct (Z.gtb_spec (Dataset.current_example_id self)
              (Dataset.last_test_id self)); [lia |].
  cbn [fst snd].
  assert (Hle : test_fetch_id self <= Dataset.last_test_id self).
  { unfold test_fetch_id.
    destruct (Z.leb_spec (Dataset.current_example_id self)
                (Dataset.last_train_id self)); lia. }
  unfold test_fetch_id in *.
  destruct (Z.leb_spec (Dataset.current_example_id self)
              (Dataset.last_train_id self)) as [Hinside | Houtside].
  - split; [reflexivity | split; [reflexivity |]].
    rewrite getTestExample_unfold. unfold test_fetch_id. simpl.
    destruct (Z.gtb_spec (Dataset.last_train_id self + 1)
                (Dataset.last_test_id self)); [lia |].
    destruct (Z.leb_spec (Dataset.last_train_id self + 1)
                (Dataset.last_train_id self)); [lia |].
    rewrite _getExamples_set_cursor, Hempty. reflexivity.
  - split; [reflexivity | split; [reflexivity |]].
    rewrite getTestExample_unfold. unfold test_fetch_id.
    destruct (Z.gtb_spec (Dataset.current_example_id self)
                (Dataset.last_test_id self)); [lia |].
    destruct (Z.leb_spec (Dataset.current_example_id self)
                (Dataset.last_train_id self)); [lia |].
    rewrite Hempty. reflexivity.
Qed.

Lemma getTestExample_missing_row_witness :
  let self := Dataset.__init__ sparse_table (7 # 10) 20 AGGREGATED_PICKUPS in
  fst (Dataset.getTestExample self) = Raise IndexError /\
  Dataset.current_example_id (snd (Dataset.getTestExample self)) = 15.
Proof.
  intros self.
  assert (Hcur : Dataset.current_example_id self <= Dataset.last_test_id self)
    by (vm_compute; discriminate).
  assert (Hsplit : Dataset.last_train_id self < Dataset.last_test_id self)
    by reflexivity.
  assert (Hmissing :
    forall row, In row (Dataset.db self (Dataset.table_name self)) ->
                id row <> test_fetch_id self).
  { intros row [<- | [<- | [<- | []]]]; vm_compute; discriminate. }
  destruct (getTestExample_missing_row self Hcur Hsplit Hmissing)
    as (Hraise & Hafter & _).
  split; [exact Hraise | exact Hafter].
Defined.

(** * Further properties of the models *)

(** ** train *)





Lemma getTrainExamples_no_progress (dataset : Dataset.t) (batch_size : Z) :
  batch_size <= 0 ->
  Dataset.hasMoreTrainExamples dataset = true ->
  Dataset.hasMoreTrainExamples
    (snd (Dataset.getTrainExamples dataset batch_size)) = true.
Proof.
  unfold Dataset.hasMoreTrainExamples. rewrite !Z.leb_le.
  intros Hbatch Hmore; simpl.
  destruct (effective_batch_size_cases dataset batch_size)
    as [[Hx He] | [Hx He]]; rewrite He; lia.
Qed.

Lemma collect_train_examples_no_end (batch_size : Z) (fuel : nat) :
  batch_size <= 0 ->
  forall (dataset : Dataset.t) (row_dicts : list Example),
    Dataset.hasMoreTrainExamples dataset = true ->
    fst (RegressionModel.collect_train_examples fuel batch_size dataset
           row_dicts) = NoFuel.
Proof.
  intros Hbatch.
  induction fuel as [| fuel IH]; intros dataset row_dicts Hmore; simpl;
    rewrite Hmore; [reflexivity |].
  apply IH.
  exact (getTrainExamples_no_progress dataset batch_size Hbatch Hmore).
Qed.

(** X8.  With TRAIN_BATCH_SIZE <= 0 and a train example left, the loop of
    train makes no progress: hasMoreTrainExamples is still true after
    every getTrainExamples call, so the loop does not end within any
    number of iterations and train returns nothing. *)
Theorem train_does_not_end (ext : External) (const : Const)
    (self : RegressionModel.t ext) (dataset : Dataset.t) :
  Const_TRAIN_BATCH_SIZE const <= 0 ->
  Dataset.hasMoreTrainExamples dataset = true ->
  (forall (fuel : nat) (row_dicts : list Example),
     fst (RegressionModel.collect_train_examples fuel
            (Const_TRAIN_BATCH_SIZE const) dataset row_dicts) = NoFuel) /\
  fst (RegressionModel.train const self dataset) = NoFuel.
Proof.
  intros Hbatch Hmore.
  assert (Hloop :
    forall (fuel : nat) (row_dicts : list Example),
      fst (RegressionModel.collect_train_examples fuel
             (Const_TRAIN_BATCH_SIZE const) dataset row_dicts) = NoFuel)
    by (intros fuel row_dicts;
        apply collect_train_examples_no_end; assumption).
  split; [exact Hloop |].
  unfold RegressionModel.train.
  specialize (Hloop (RegressionModel.train_fuel dataset) []).
  destruct (RegressionModel.collect_train_examples _ _ dataset [])
    as [[rows | e |] after]; simpl in Hloop; try discriminate.
  reflexivity.
Qed.

Lemma train_does_not_end_witness :
  fst (RegressionModel.train
         {| Const_AGGREGATED_PICKUPS := "pickups_aggregated";
            Const_TRAIN_BATCH_SIZE := 0;
            util_VERBOSE := false |}
         (LinearRegression.__init__ (ext := zone_external) const_py
            (answering []))
         (Dataset.__init__ january (7 # 10) 20 AGGREGATED_PICKUPS))
  = NoFuel.
Proof.
  apply train_does_not_end.
  - simpl. lia.
  - reflexivity.
Defined.





(** ** The constructor's split, again *)





(** ** The metric, again *)

Lemma evaluatePredictions_Ok (y_true y_pred : list R) (report : Report) :
  Evaluator.evaluatePredictions y_true y_pred = Ok report ->
  List.length y_true = List.length y_pred /\ y_true <> [] /\
  rms report
  = sqrt (Rsum (squared_errors y_true y_pred) / INR (List.length y_true)).
Proof.
  unfold Evaluator.evaluatePredictions.
  destruct (Nat.eqb_spec (List.length y_true) (List.length y_pred))
    as [Hlen | Hlen]; simpl; [| discriminate].
  unfold mean_squared_error.
  rewrite (proj2 (Nat.eqb_eq _ _) Hlen); simpl.
  destruct y_true as [| a y_true]; simpl; [discriminate |].
  intros H; injection H as <-.
  split; [exact Hlen | split; [discriminate | reflexivity]].
Qed.

Lemma squared_errors_swap (y_true : list R) :
  forall y_pred : list R,
    squared_errors y_pred y_true = squared_errors y_true y_pred.
Proof.
  induction y_true as [| a y_true IH]; intros [| b y_pred];
    try reflexivity.
  rewrite !squared_errors_cons, IH. f_equal. unfold Rsqr. ring.
Qed.

(** X11.  Whenever evaluatePredictions reports an RMSD, that RMSD is
    >= 0, and with the two lists exchanged it reports the same RMSD. *)
Theorem rmsd_symmetric (true_num_pickups predicted_num_pickups : list R)
    (report : Report) :
  Evaluator.evaluatePredictions true_num_pickups predicted_num_pickups
    = Ok report ->
  (0 <= rms report)%R /\
  exists swapped,
    Evaluator.evaluatePredictions predicted_num_pickups true_num_pickups
      = Ok swapped /\
    rms swapped = rms report.
Proof.
  intros Hrun.
  destruct (evaluatePredictions_Ok _ _ _ Hrun) as (Hlen & Hne & Hrms).
  split; [rewrite Hrms; apply sqrt_pos |].
  assert (Hne' : predicted_num_pickups <> []).
  { intros ->. destruct true_num_pickups; [contradiction | discriminate]. }
  eexists. split;
    [apply (evaluatePredictions_defined _ _ (eq_sym Hlen) Hne') |].
  cbn [rms]. rewrite Hrms, squared_errors_swap, Hlen. reflexivity.
Qed.

Lemma rmsd_symmetric_witness :
  exists swapped report,
    Evaluator.evaluatePredictions [1; 1]%R [0; 0]%R = Ok swapped /\
    Evaluator.evaluatePredictions [0; 0]%R [1; 1]%R = Ok report /\
    rms swapped = rms report.
Proof.
  destruct (rmsd_symmetric [0; 0]%R [1; 1]%R _
              (evaluatePredictions_defined [0; 0]%R [1; 1]%R eq_refl
                 ltac:(discriminate)))
    as (_ & swapped & Hswapped & Hrms).
  eexists swapped, _.
  split; [exact Hswapped | split; [| exact Hrms]].
  apply evaluatePredictions_defined; [reflexivity | discriminate].
Defined.




(** ** The baselines, again *)

(** X13.  A baseline's prediction depends on the example only through its
    zone_id (and, for the second baseline, the hour of its
    start_datetime) and on the Dataset only through last_train_id: it
    reads neither the example's id nor its num_pickups, and the position
    of the cursor does not matter. *)
Theorem baseline_reads_zone_and_hour_only (ext : External) (const : Const)
    (database : QueryDatabase) (dataset dataset' : Dataset.t)
    (example example' : Example) :
  Dataset.last_train_id dataset = Dataset.last_train_id dataset' ->
  zone_id example = zone_id example' ->
  Model.predict (ext := ext)
    (Model.Baseline (Baseline.__init__ const database)) dataset example
  = Model.predict (ext := ext)
      (Model.Baseline (Baseline.__init__ const database)) dataset' example'
  /\
  (hour (start_datetime example) = hour (start_datetime example') ->
   Model.predict (ext := ext)
     (Model.BetterBaseline (BetterBaseline.__init__ const database))
     dataset example
   = Model.predict (ext := ext)
       (Model.BetterBaseline (BetterBaseline.__init__ const database))
       dataset' example').
Proof.
  intros Htrain Hzone. split.
  - simpl. unfold Baseline.predict, Baseline.query; simpl.
    rewrite Htrain, Hzone. reflexivity.
  - intros Hhour. simpl.
    unfold BetterBaseline.predict, BetterBaseline.query; simpl.
    rewrite Htrain, Hzone, Hhour. reflexivity.
Qed.

Lemma baseline_reads_zone_and_hour_only_witness :
  let dataset := Dataset.__init__ january (7 # 10) 20 AGGREGATED_PICKUPS in
  let database : QueryDatabase :=
    fun query _ => [{| avg_num_pickups := IZR (zone_id_is query) |}] in
  Model.predict (ext := zone_external)
    (Model.Baseline (Baseline.__init__ const_py database))
    dataset (row_with_id 15)
  = Model.predict (ext := zone_external)
      (Model.Baseline (Baseline.__init__ const_py database))
      (perform dataset CallGetTestExample) (row_with_id 18).
Proof.
  intros dataset database.
  apply (proj1 (baseline_reads_zone_and_hour_only zone_external const_py
                  database dataset (perform dataset CallGetTestExample)
                  (row_with_id 15) (row_with_id 18) eq_refl eq_refl)).
Defined.

(** ** The ranking of the features *)

Lemma getitem_valid (coef_ : list Q) (index : Z) :
  (exists weight, getitem coef_ index = Ok weight) <->
  - Z.of_nat (List.length coef_) <= index < Z.of_nat (List.length coef_).
Proof.
  unfold getitem.
  set (size := Z.of_nat (List.length coef_)).
  set (j := if index <? 0 then index + size else index).
  assert (Hj : (index < 0 /\ j = index + size) \/ (0 <= index /\ j = index))
    by (unfold j; destruct (Z.ltb_spec index 0); [left | right]; lia).
  destruct (Z.ltb_spec j 0) as [Hneg | Hnonneg]; simpl.
  - split; [intros [w H]; discriminate | lia].
  - destruct (Z.leb_spec size j) as [Hbig | Hsmall].
    + split; [intros [w H]; discriminate | lia].
    + split; [intros _; lia | intros _].
      destruct (nth_error coef_ (Z.to_nat j)) as [w |] eqn:Hnth;
        [exists w; reflexivity |].
      apply nth_error_None in Hnth. unfold size in Hsmall. lia.
Qed.

Lemma getitem_outcome (coef_ : list Q) (index : Z) :
  (exists weight, getitem coef_ index = Ok weight) \/
  getitem coef_ index = Raise IndexError.
Proof.
  unfold getitem.
  destruct ((_ <? 0) || (_ <=? _)); [right; reflexivity |].
  destruct (nth_error coef_ _) as [w |];
    [left; exists w; reflexivity | right; reflexivity].
Qed.

Lemma collect_feature_weights_valid (coef_ : list Q)
    (items : list (string * Z)) :
  Forall (valid_index coef_) items ->
  forall collected : list (string * Q),
    exists feature_weights,
      RegressionModel.collect_feature_weights coef_ items collected
        = Ok (collected ++ feature_weights) /\
      Forall2 (weighs coef_) items feature_weights.
Proof.
  induction 1 as [| [name index] items Hvalid _ IH]; intros collected.
  - exists []. rewrite app_nil_r. split; [reflexivity | constructor].
  - apply getitem_valid in Hvalid. destruct Hvalid as [weight Hweight].
    simpl in Hweight. simpl. rewrite Hweight; simpl.
    destruct (IH (collected ++ [(name, weight)]))
      as (feature_weights & Hloop & Hall).
    exists ((name, weight) :: feature_weights).
    rewrite Hloop, <- app_assoc. split; [reflexivity |].
    constructor; [split; [reflexivity | exact Hweight] | exact Hall].
Qed.

Lemma collect_feature_weights_invalid (coef_ : list Q)
    (items : list (string * Z)) :
  Exists (fun item => ~ valid_index coef_ item) items ->
  forall collected : list (string * Q),
    RegressionModel.collect_feature_weights coef_ items collected
    = Raise IndexError.
Proof.
  induction items as [| [name index] items IH]; intros Hexists collected;
    [inversion Hexists |].
  simpl. destruct (getitem_outcome coef_ index) as [[weight Hw] | Hraise].
  - rewrite Hw; simpl. apply IH.
    inversion Hexists as [? ? Hbad | ? ? Hrest]; subst; [| exact Hrest].
    exfalso. apply Hbad. unfold valid_index; simpl.
    apply getitem_valid. exists weight; exact Hw.
  - rewrite Hraise. reflexivity.
Qed.

Lemma insert_by_weight_permutation (feature_weight : string * Q)
    (sorted : list (string * Q)) :
  Permutation (RegressionModel.insert_by_weight feature_weight sorted)
    (feature_weight :: sorted).
Proof.
  induction sorted as [| other rest IH]; simpl; [reflexivity |].
  destruct (Qle_bool (snd feature_weight) (snd other)); [reflexivity |].
  rewrite IH. apply perm_swap.
Qed.

Lemma sort_by_weight_permutation (feature_weights : list (string * Q)) :
  Permutation (RegressionModel.sort_by_weight feature_weights)
    feature_weights.
Proof.
  induction feature_weights as [| fw rest IH]; simpl; [constructor |].
  rewrite insert_by_weight_permutation. constructor. exact IH.
Qed.

Lemma insert_by_weight_sorted (feature_weight : string * Q)
    (sorted : list (string * Q)) :
  StronglySorted lighter sorted ->
  StronglySorted lighter
    (RegressionModel.insert_by_weight feature_weight sorted).
Proof.
  induction 1 as [| other rest Hrest IH Hall]; simpl.
  - constructor; constructor.
  - destruct (Qle_bool (snd feature_weight) (snd other)) eqn:Hle.
    + apply Qle_bool_iff in Hle.
      constructor; [constructor; assumption |].
      constructor; [exact Hle |].
      eapply Forall_impl; [| exact Hall].
      intros x Hx. unfold lighter in *. eapply Qle_trans; eassumption.
    + constructor; [exact IH |].
      apply (Permutation_Forall
               (Permutation_sym
                  (insert_by_weight_permutation feature_weight rest))).
      constructor; [| exact Hall].
      unfold lighter. apply Qlt_le_weak, Qnot_le_lt.
      intros Habs. apply Qle_bool_iff in Habs. congruence.
Qed.

Lemma sort_by_weight_sorted (feature_weights : list (string * Q)) :
  StronglySorted lighter (RegressionModel.sort_by_weight feature_weights).
Proof.
  induction feature_weights as [| fw rest IH]; simpl; [constructor |].
  apply insert_by_weight_sorted. exact IH.
Qed.

Lemma StronglySorted_app (front back : list (string * Q)) :
  StronglySorted lighter (front ++ back) ->
  StronglySorted lighter front /\ StronglySorted lighter back /\
  forall a b, In a front -> In b back -> lighter a b.
Proof.
  induction front as [| x front IH]; simpl; intros Hsorted.
  - split; [constructor | split; [exact Hsorted | intros a b []]].
  - inversion Hsorted as [| ? ? Htail Hall]; subst.
    destruct (IH Htail) as (Hfront & Hback & Hcross).
    apply Forall_app in Hall. destruct Hall as [Hall_front Hall_back].
    split; [constructor; assumption | split; [exact Hback |]].
    intros a b [<- | Ha] Hb.
    + rewrite Forall_forall in Hall_back. apply Hall_back, Hb.
    + apply Hcross; assumption.
Qed.

Lemma _printMostPredictiveFeatures_ranked (coef_ : list Q)
    (items : list (string * Z)) (n : Z) :
  Forall (valid_index coef_) items ->
  exists feature_weights ranked,
    Forall2 (weighs coef_) items feature_weights /\
    Permutation ranked feature_weights /\
    StronglySorted lighter ranked /\
    List.length ranked = List.length items /\
    RegressionModel._printMostPredictiveFeatures (Some coef_) items n
    = Ok (RegressionModel.HeaderLine
          :: map RegressionModel.printFeatureWeight (slice_to ranked n)
          ++ map RegressionModel.printFeatureWeight
               (slice_from ranked (- n))).
Proof.
  intros Hvalid.
  destruct (collect_feature_weights_valid coef_ items Hvalid [])
    as (feature_weights & Hloop & Hall).
  exists feature_weights, (RegressionModel.sort_by_weight feature_weights).
  split; [exact Hall | split; [apply sort_by_weight_permutation |]].
  split; [apply sort_by_weight_sorted | split].
  - rewrite (Permutation_length (sort_by_weight_permutation _)).
    symmetry. eapply Forall2_length. exact Hall.
  - unfold RegressionModel._printMostPredictiveFeatures.
    rewrite Hloop. reflexivity.
Qed.

(** X14.  With coefficients present, every index of the dictionary inside
    them, n >= 1 and at least 2n features, _printMostPredictiveFeatures
    prints the header and then 2n feature lines: the n features of lowest
    weight in ascending order, then the n features of highest weight in
    ascending order.  The two blocks and the features left between them
    are together the features of the dictionary, each with the weight its
    index selects, so no feature is printed twice. *)
Theorem _printMostPredictiveFeatures_lowest_and_highest (coef_ : list Q)
    (feature_name_indices : list (string * Z)) (n : Z) :
  Forall (valid_index coef_) feature_name_indices ->
  1 <= n -> 2 * n <= Z.of_nat (List.length feature_name_indices) ->
  exists feature_weights lowest between highest,
    Forall2 (weighs coef_) feature_name_indices feature_weights /\
    Permutation (lowest ++ between ++ highest) feature_weights /\
    RegressionModel._printMostPredictiveFeatures (Some coef_)
      feature_name_indices n
    = Ok (RegressionModel.HeaderLine
          :: map RegressionModel.printFeatureWeight lowest
          ++ map RegressionModel.printFeatureWeight highest) /\
    Z.of_nat (List.length lowest) = n /\
    Z.of_nat (List.length highest) = n /\
    StronglySorted lighter lowest /\ StronglySorted lighter highest /\
    (forall a b, In a lowest -> In b (between ++ highest) -> lighter a b) /\
    (forall a b, In a (lowest ++ between) -> In b highest -> lighter a b).
Proof.
  intros Hvalid Hn Hsize.
  destruct (_printMostPredictiveFeatures_ranked coef_ feature_name_indices n
              Hvalid)
    as (feature_weights & ranked & Hall & Hperm & Hsorted & Hlen & Hout).
  set (size := List.length feature_name_indices) in *.
  set (k := Z.to_nat n).
  assert (Hk : (1 <= k /\ 2 * k <= size)%nat) by (unfold k; lia).
  exists feature_weights, (firstn k ranked),
    (firstn (size - 2 * k) (skipn k ranked)), (skipn (size - k) ranked).
  assert (Hsplit : ranked
                   = firstn k ranked
                     ++ firstn (size - 2 * k) (skipn k ranked)
                     ++ skipn (size - k) ranked).
  { rewrite <- (firstn_skipn k ranked) at 1. f_equal.
    rewrite <- (firstn_skipn (size - 2 * k) (skipn k ranked)) at 1.
    f_equal. rewrite skipn_skipn. f_equal. lia. }
  split; [exact Hall | split; [rewrite <- Hsplit; exact Hperm | split]].
  { rewrite Hout. unfold slice_to, slice_from.
    destruct (Z.ltb_spec n 0); [lia |].
    destruct (Z.ltb_spec (- n) 0); [| lia].
    rewrite Hlen. fold size.
    replace (Z.to_nat (Z.of_nat size + - n)) with (size - k)%nat
      by (unfold k; lia).
    reflexivity. }
  split; [rewrite length_firstn, Hlen; fold size; unfold k; lia |].
  split; [rewrite length_skipn, Hlen; fold size; unfold k; lia |].
  pose proof Hsorted as Hsorted'.
  rewrite Hsplit in Hsorted.
  destruct (StronglySorted_app _ _ Hsorted) as (Hlow & Hrest & Hcross).
  destruct (StronglySorted_app _ _ Hrest) as (_ & Hhigh & _).
  rewrite Hsplit, app_assoc in Hsorted'.
  destruct (StronglySorted_app _ _ Hsorted') as (_ & _ & Hcross').
  repeat split; assumption.
Qed.

Lemma _printMostPredictiveFeatures_lowest_and_highest_witness :
  RegressionModel._printMostPredictiveFeatures (Some five_weights)
    five_features 2
  = Ok [RegressionModel.HeaderLine;
        RegressionModel.FeatureWeightLine "hour" (-2 # 1);
        RegressionModel.FeatureWeightLine "rain" (-1 # 2);
        RegressionModel.FeatureWeightLine "zone" (3 # 1);
        RegressionModel.FeatureWeightLine "month" (7 # 2)] /\
  exists lowest highest : list (string * Q),
    Z.of_nat (List.length lowest) = 2 /\
    Z.of_nat (List.length highest) = 2.
Proof.
  split; [reflexivity |].
  assert (Hvalid : Forall (valid_index five_weights) five_features)
    by (repeat constructor; unfold valid_index; simpl; lia).
  destruct (_printMostPredictiveFeatures_lowest_and_highest five_weights
              five_features 2 Hvalid ltac:(lia) ltac:(simpl; lia))
    as (_ & lowest & _ & highest & _ & _ & _ & Hlow & Hhigh & _).
  exists lowest, highest. split; assumption.
Defined.

(** X15.  With coefficients present, every index inside them and n at
    least the number of features (n >= 1), both slices are the whole
    ranked list: after the header every feature is printed twice, the
    full ascending list followed by the full ascending list again. *)
Theorem _printMostPredictiveFeatures_prints_twice (coef_ : list Q)
    (feature_name_indices : list (string * Z)) (n : Z) :
  Forall (valid_index coef_) feature_name_indices ->
  1 <= n -> Z.of_nat (List.length feature_name_indices) <= n ->
  exists feature_weights ranked,
    Forall2 (weighs coef_) feature_name_indices feature_weights /\
    Permutation ranked feature_weights /\
    StronglySorted lighter ranked /\
    RegressionModel._printMostPredictiveFeatures (Some coef_)
      feature_name_indices n
    = Ok (RegressionModel.HeaderLine
          :: map RegressionModel.printFeatureWeight ranked
          ++ map RegressionModel.printFeatureWeight ranked).
Proof.
  intros Hvalid Hn Hsize.
  destruct (_printMostPredictiveFeatures_ranked coef_ feature_name_indices n
              Hvalid)
    as (feature_weights & ranked & Hall & Hperm & Hsorted & Hlen & Hout).
  exists feature_weights, ranked.
  split; [exact Hall | split; [exact Hperm | split; [exact Hsorted |]]].
  rewrite Hout. unfold slice_to, slice_from.
  destruct (Z.ltb_spec n 0); [lia |].
  destruct (Z.ltb_spec (- n) 0); [| lia].
  rewrite firstn_all2 by lia.
  replace (Z.to_nat (Z.of_nat (List.length ranked) + - n)) with 0%nat by lia.
  reflexivity.
Qed.

Lemma _printMostPredictiveFeatures_prints_twice_witness :
  exists ranked : list (string * Q),
    RegressionModel._printMostPredictiveFeatures (Some five_weights)
      five_features 15
    = Ok (RegressionModel.HeaderLine
          :: map RegressionModel.printFeatureWeight ranked
          ++ map RegressionModel.printFeatureWeight ranked).
Proof.
  assert (Hvalid : Forall (valid_index five_weights) five_features)
    by (repeat constructor; unfold valid_index; simpl; lia).
  destruct (_printMostPredictiveFeatures_prints_twice five_weights
              five_features 15 Hvalid ltac:(lia) ltac:(simpl; lia))
    as (_ & ranked & _ & _ & _ & Hout).
  exists ranked. exact Hout.
Defined.

(** X16.  With n = 0 the first slice is empty but the second,
    feature_weights[-0:], is the whole list: after the header every
    feature is printed once, in ascending order of weight, rather than
    none. *)
Theorem _printMostPredictiveFeatures_zero (coef_ : list Q)
    (feature_name_indices : list (string * Z)) :
  Forall (valid_index coef_) feature_name_indices ->
  exists feature_weights ranked,
    Forall2 (weighs coef_) feature_name_indices feature_weights /\
    Permutation ranked feature_weights /\
    StronglySorted lighter ranked /\
    RegressionModel._printMostPredictiveFeatures (Some coef_)
      feature_name_indices 0
    = Ok (RegressionModel.HeaderLine
          :: map RegressionModel.printFeatureWeight ranked).
Proof.
  intros Hvalid.
  destruct (_printMostPredictiveFeatures_ranked coef_ feature_name_indices 0
              Hvalid)
    as (feature_weights & ranked & Hall & Hperm & Hsorted & _ & Hout).
  exists feature_weights, ranked.
  split; [exact Hall | split; [exact Hperm | split; [exact Hsorted |]]].
  rewrite Hout. reflexivity.
Qed.

Lemma _printMostPredictiveFeatures_zero_witness :
  RegressionModel._printMostPredictiveFeatures (Some five_weights)
    five_features 0
  = Ok [RegressionModel.HeaderLine;
        RegressionModel.FeatureWeightLine "hour" (-2 # 1);
        RegressionModel.FeatureWeightLine "rain" (-1 # 2);
        RegressionModel.FeatureWeightLine "day" (0 # 1);
        RegressionModel.FeatureWeightLine "zone" (3 # 1);
        RegressionModel.FeatureWeightLine "month" (7 # 2)] /\
  exists ranked : list (string * Q), StronglySorted lighter ranked.
Proof.
  split; [reflexivity |].
  assert (Hvalid : Forall (valid_index five_weights) five_features)
    by (repeat constructor; unfold valid_index; simpl; lia).
  destruct (_printMostPredictiveFeatures_zero five_weights five_features
              Hvalid) as (_ & ranked & _ & _ & Hsorted & _).
  exists ranked. exact Hsorted.
Defined.

(** X17.  With coefficients present, _printMostPredictiveFeatures raises
    IndexError, having printed nothing, exactly when some index of the
    dictionary lies outside the coefficients (below -len or at len and
    above); otherwise it prints the header first. *)
Theorem _printMostPredictiveFeatures_index_error (coef_ : list Q)
    (feature_name_indices : list (string * Z)) (n : Z) :
  (RegressionModel._printMostPredictiveFeatures (Some coef_)
     feature_name_indices n = Raise IndexError
   <-> Exists (fun item => ~ valid_index coef_ item) feature_name_indices) /\
  (Forall (valid_index coef_) feature_name_indices ->
   exists lines,
     RegressionModel._printMostPredictiveFeatures (Some coef_)
       feature_name_indices n = Ok (RegressionModel.HeaderLine :: lines)).
Proof.
  assert (Hok :
    Forall (valid_index coef_) feature_name_indices ->
    exists lines,
      RegressionModel._printMostPredictiveFeatures (Some coef_)
        feature_name_indices n = Ok (RegressionModel.HeaderLine :: lines)).
  { intros Hvalid.
    destruct (_printMostPredictiveFeatures_ranked coef_ feature_name_indices
                n Hvalid) as (_ & ranked & _ & _ & _ & _ & Hout).
    eexists. exact Hout. }
  split; [| exact Hok]. split.
  - intros Hraise.
    destruct (Forall_Exists_dec (valid_index coef_)
                (fun item =>
                   match Z_le_dec (- Z.of_nat (List.length coef_)) (snd item),
                         Z_lt_dec (snd item) (Z.of_nat (List.length coef_))
                   with
                   | left H1, left H2 => left (conj H1 H2)
                   | right H1, _ => right (fun H => H1 (proj1 H))
                   | _, right H2 => right (fun H => H2 (proj2 H))
                   end)
                feature_name_indices) as [Hvalid | Hinvalid];
      [| exact Hinvalid].
    destruct (Hok Hvalid) as [lines Hlines]. congruence.
  - intros Hinvalid.
    unfold RegressionModel._printMostPredictiveFeatures.
    rewrite (collect_feature_weights_invalid coef_ feature_name_indices
               Hinvalid). reflexivity.
Qed.

Lemma _printMostPredictiveFeatures_index_error_witness :
  RegressionModel._printMostPredictiveFeatures (Some five_weights)
    (five_features ++ [("snow"%string, 5)]) 2 = Raise IndexError.
Proof.
  apply (proj2 (proj1 (_printMostPredictiveFeatures_index_error five_weights
                         (five_features ++ [("snow"%string, 5)]) 2))).
  apply Exists_exists. exists ("snow"%string, 5).
  split; [simpl; tauto |].
  unfold valid_index; simpl. lia.
Defined.

(** ** Training and the first test example *)




